(** * WhatsApp webhook aggregation service: model and verification

    A shallow embedding of [src/main.py] (the webhook handler, the audio
    transcription helper and the per-sender aggregation task) and of
    [process_chunks] from [src/app/agent/utils/graph_utils.py].

    The service runs on one asyncio event loop.  A coroutine runs without
    interruption between two [await]s that really suspend, so the model has
    one atomic step per such segment:
    - a whole call of [webhook_handler] (its only [await] is on
      [transcribe_base64_audio], a coroutine that never suspends);
    - [process_aggregated_messages] up to [asyncio.sleep];
    - [process_aggregated_messages] from the wake-up to [await main(...)];
    - the rest of [process_aggregated_messages] once [main] returned or
      raised.
    Calls to the logger are left out. *)

From stdpp Require Import base gmap strings list pretty.
From Stdlib Require Import ZArith QArith Ascii String.

Local Close Scope Q_scope.
Local Open Scope string_scope.
Set Warnings "-register-all,-clear-no-such-hyp".

(** ** Python values and exceptions *)

(** The JSON payloads ([Dict[str, Any]]) and the agent chunks.  A dict is
    an association list in insertion order, read at the first match. *)
Inductive pyval : Type :=
| PNone
| PBool (b : bool)
| PInt (z : Z)
| PFloat (q : Q)
| PStr (s : string)
| PList (l : list pyval)
| PDict (d : list (string * pyval))
| PAIMessage (content : pyval) (tool_calls : option (list pyval)).

Abbreviation dict := (list (string * pyval)).

Inductive exn : Type :=
| KeyError (key : string)
| IndexError
| TypeError
| ValueError
| ValidationError (field : string)
| BinasciiError
| UnboundLocalError (name : string)
| NameError (name : string)
| OSError
| CollaboratorError (msg : string)
| HTTPException (status_code : Z) (detail : string).

Inductive result (A : Type) : Type :=
| Ok (a : A)
| Raise (e : exn).
Arguments Ok {A} a.
Arguments Raise {A} e.

Definition result_bind {A B} (r : result A) (k : A → result B) : result B :=
  match r with
  | Ok a => k a
  | Raise e => Raise e
  end.

Fixpoint dict_lookup (d : dict) (k : string) : option pyval :=
  match d with
  | [] => None
  | (k', v) :: d' => if String.eqb k' k then Some v else dict_lookup d' k
  end.

(** [d.get(k)] and [d.get(k, dflt)] *)
Definition dict_get (d : dict) (k : string) : pyval :=
  default PNone (dict_lookup d k).
Definition dict_get_default (d : dict) (k : string) (dflt : pyval) : pyval :=
  default dflt (dict_lookup d k).

(** [d[k]] on a dict *)
Definition dict_getitem (d : dict) (k : string) : result pyval :=
  match dict_lookup d k with
  | Some v => Ok v
  | None => Raise (KeyError k)
  end.

(** [v[k]] with a string key [k] on any value: only a dict supports it. *)
Definition subscript (v : pyval) (k : string) : result pyval :=
  match v with
  | PDict d => dict_getitem d k
  | _ => Raise TypeError
  end.

(** [v == "s"] *)
Definition eq_str (v : pyval) (s : string) : bool :=
  match v with
  | PStr s' => String.eqb s' s
  | _ => false
  end.

(** [v == True]: Python's [bool] is a subtype of [int], so [1] and [1.0]
    compare equal to [True]. *)
Definition eq_True (v : pyval) : bool :=
  match v with
  | PBool b => b
  | PInt z => Z.eqb z 1
  | PFloat q => Qeq_bool q 1%Q
  | _ => false
  end.

(** [v in ["chat", "list_response", "ptt"]] *)
Definition in_allowed_types (v : pyval) : bool :=
  eq_str v "chat" || eq_str v "list_response" || eq_str v "ptt".

(** [" ".join(l)] *)
Fixpoint join (sep : string) (l : list string) : string :=
  match l with
  | [] => ""
  | [x] => x
  | x :: l' => x +:+ sep +:+ join sep l'
  end.

(** [s.split("@")[0]]: the part of [s] before its first ["@"], all of [s]
    when it has none. *)
Fixpoint before_at (s : string) : string :=
  match s with
  | EmptyString => EmptyString
  | String c s' => if Ascii.eqb c "@"%char then EmptyString else String c (before_at s')
  end.

(** [c in s] for a character [c] *)
Fixpoint mentions (c : ascii) (s : string) : bool :=
  match s with
  | EmptyString => false
  | String c' s' => Ascii.eqb c' c || mentions c s'
  end.

(** ** The environment: configuration and library functions *)

Record Env : Type := {
  (** [int(WAIT_TIME)], where [WAIT_TIME = os.getenv("WAIT_TIME", 1)];
      [Raise] when the variable does not hold an integer literal *)
  int_WAIT_TIME : result Z;
  (** [LANG = os.getenv("LANGUAGE")] *)
  LANG : option string;
  (** whether the name [GROQ_CLIENT] is bound when [transcribe_base64_audio]
      runs; [main.py] as it stands neither defines nor imports it, which is
      [false] *)
  GROQ_CLIENT_bound : bool;
  (** [base64.b64decode] *)
  b64decode : pyval → result (list Byte.byte);
  (** pydantic's validation of a [str] and of a [bool] field *)
  validate_str : pyval → option string;
  validate_bool : pyval → option bool;
  (** [str(e)] of an exception and the text an f-string gives a value *)
  str_exn : exn → string;
  str_val : pyval → string;
  validate_str_PStr : ∀ s, validate_str (PStr s) = Some s;
  validate_bool_PBool : ∀ b, validate_bool (PBool b) = Some b;
}.

(** ** The data model of main.py *)

Record Sender : Type := {
  id : string;
  isUser : bool;
}.

Record WebhookMessage : Type := {
  event : string;
  session : string;
  body : string;
  type : string;
  isNewMsg : bool;
  sender : Sender;
  isGroupMsg : bool;
}.

(** The dict returned by [process_aggregated_messages] *)
Record dispatch_result : Type := {
  dr_session : string;
  dr_message : string;
  dr_sender_id : string;
  dr_is_user : bool;
  dr_is_group : bool;
  dr_agent_response : pyval;
}.

(** Where a task made by [asyncio.create_task(process_aggregated_messages(..))]
    stands. *)
Inductive task_state : Type :=
| Created
| Sleeping (deadline : Z)
| InAgent (phone_number combined_message : string)
| Returned (r : option dispatch_result)
| Failed (e : exn).

Record task : Type := {
  task_sender_id : string;
  task_session : string;
  task_is_user : bool;
  task_is_group : bool;
  task_st : task_state;
}.

(** Calls to the external collaborators.  [CallAgent] is
    [main(phone_number, combined_message)]; its first field records the
    sender whose window made the call. *)
Inductive effect : Type :=
| Transcribe (path : string) (language : option string)
| CallAgent (sender_id phone_number text : string).

(** The process: the two module-level maps, every task created so far (a
    task's handle is its index), the temporary files on disk, the calls
    made to collaborators, and the time of the event loop in
    milliseconds. *)
Record State : Type := {
  message_buffers : gmap string (list string);
  processing_tasks : gmap string nat;
  tasks : list task;
  files : gset string;
  effects : list effect;
  clock : Z;
}.

Definition init : State :=
  {| message_buffers := ∅; processing_tasks := ∅; tasks := [];
     files := ∅; effects := []; clock := 0 |}.

Definition set_message_buffers (f : gmap string (list string) → gmap string (list string))
    (st : State) : State :=
  {| message_buffers := f (message_buffers st); processing_tasks := processing_tasks st;
     tasks := tasks st; files := files st; effects := effects st; clock := clock st |}.

Definition set_processing_tasks (f : gmap string nat → gmap string nat) (st : State) : State :=
  {| message_buffers := message_buffers st; processing_tasks := f (processing_tasks st);
     tasks := tasks st; files := files st; effects := effects st; clock := clock st |}.

Definition set_tasks (f : list task → list task) (st : State) : State :=
  {| message_buffers := message_buffers st; processing_tasks := processing_tasks st;
     tasks := f (tasks st); files := files st; effects := effects st; clock := clock st |}.

Definition set_files (f : gset string → gset string) (st : State) : State :=
  {| message_buffers := message_buffers st; processing_tasks := processing_tasks st;
     tasks := tasks st; files := f (files st); effects := effects st; clock := clock st |}.

Definition add_effect (e : effect) (st : State) : State :=
  {| message_buffers := message_buffers st; processing_tasks := processing_tasks st;
     tasks := tasks st; files := files st; effects := (effects st ++ [e])%list; clock := clock st |}.

Definition set_clock (now : Z) (st : State) : State :=
  {| message_buffers := message_buffers st; processing_tasks := processing_tasks st;
     tasks := tasks st; files := files st; effects := effects st; clock := now |}.

(** [message_buffers[sender_id]] reads a [defaultdict(list)]: a missing key
    is inserted with the empty list. *)
Definition buffer (st : State) (sender_id : string) : list string :=
  default [] (message_buffers st !! sender_id).

Definition touch_buffer (sender_id : string) : State → State :=
  set_message_buffers (λ m, <[sender_id := default [] (m !! sender_id)]> m).

(** [message_buffers[sender_id] = l] *)
Definition set_buffer (sender_id : string) (l : list string) : State → State :=
  set_message_buffers (<[sender_id := l]>).

(** [message_buffers[sender_id].append(x)] *)
Definition append_buffer (sender_id : string) (x : string) : State → State :=
  set_message_buffers (λ m, <[sender_id := (default [] (m !! sender_id) ++ [x])%list]> m).

(** [if sender_id in processing_tasks: del processing_tasks[sender_id]] *)
Definition del_task (sender_id : string) : State → State :=
  set_processing_tasks (delete sender_id).

Definition with_st (ts : task_state) (t : task) : task :=
  {| task_sender_id := task_sender_id t; task_session := task_session t;
     task_is_user := task_is_user t; task_is_group := task_is_group t;
     task_st := ts |}.

Definition set_task_st (tid : nat) (ts : task_state) : State → State :=
  set_tasks (alter (with_st ts) tid).

(** ** A state and exception monad for the handler *)

Definition M (A : Type) : Type := State → State * result A.

Definition ret {A} (a : A) : M A := λ st, (st, Ok a).
Definition raise {A} (e : exn) : M A := λ st, (st, Raise e).
Definition bind {A B} (m : M A) (k : A → M B) : M B :=
  λ st, match m st with
        | (st', Ok a) => k a st'
        | (st', Raise e) => (st', Raise e)
        end.
Definition lift {A} (r : result A) : M A := λ st, (st, r).
Definition modify (f : State → State) : M unit := λ st, (f st, Ok tt).
Definition gets {A} (f : State → A) : M A := λ st, (st, Ok (f st)).

(** [try: m except Exception as e: h e] *)
Definition try_except {A} (m : M A) (h : exn → M A) : M A :=
  λ st, match m st with
        | (st', Ok a) => (st', Ok a)
        | (st', Raise e) => h e st'
        end.

Notation "x <- m ;; k" := (bind m (λ x, k))
  (at level 100, m at next level, right associativity).
Notation "m ;;; k" := (bind m (λ _, k))
  (at level 100, right associativity).

(** ** Audio transcription *)

(** What the outside world answers during one call of
    [transcribe_base64_audio]: the name [tempfile.NamedTemporaryFile] picks;
    whether [tmp_file.write] returns; whether closing the file at the end of
    the [with] block, which flushes what [write] left in the buffer,
    succeeds; and what the call
    [GROQ_CLIENT.audio.transcriptions.create(..).text] gives once it is
    made. *)
Record audio_io : Type := {
  tmp_name : string;
  write_ok : bool;
  close_ok : bool;
  whisper : result string;
}.

Section Service.
Context (env : Env).

(** The [try] block of [transcribe_base64_audio].  Next to its outcome it
    returns the local variable [tmp_file_path], [None] while unbound, for
    the [finally] block to read. *)
Definition transcribe_try (io : audio_io) (base64_audio : pyval)
    (st : State) : State * (option string * result string) :=
  match b64decode env base64_audio with
  | Raise e => (st, (None, Raise e))
  | Ok audio_data =>
      (* with tempfile.NamedTemporaryFile(delete=False, suffix=".ogg") *)
      let st := set_files (λ fs, {[tmp_name io]} ∪ fs) st in
      if write_ok io then
        let tmp_file_path := tmp_name io in
        if close_ok io then
          (* with open(tmp_file_path, "rb") as audio_file *)
          if GROQ_CLIENT_bound env then
            let st := add_effect (Transcribe tmp_file_path (LANG env)) st in
            (st, (Some tmp_file_path, whisper io))
          else (st, (Some tmp_file_path, Raise (NameError "GROQ_CLIENT")))
        else (st, (Some tmp_file_path, Raise OSError))
      else (st, (None, Raise OSError))
  end.

(** The [finally] block: an exception raised in it replaces the outcome of
    the [try] block. *)
Definition transcribe_base64_audio (io : audio_io) (base64_audio : pyval) : M string :=
  λ st,
    let '(st, (tmp_file_path, r)) := transcribe_try io base64_audio st in
    match tmp_file_path with
    | None => (st, Raise (UnboundLocalError "tmp_file_path"))
    | Some p =>
        if decide (p ∈ files st)
        then (set_files (λ fs, fs ∖ {[p]}) st, r)
        else (st, r)
    end.

(** ** The webhook handler *)

(** [Sender(id=.., isUser=..)] *)
Definition mk_Sender (id_ isUser_ : pyval) : result Sender :=
  match validate_str env id_ with
  | None => Raise (ValidationError "id")
  | Some i =>
      match validate_bool env isUser_ with
      | None => Raise (ValidationError "isUser")
      | Some u => Ok {| id := i; isUser := u |}
      end
  end.

(** [WebhookMessage(event=.., session=.., body=.., type=.., isNewMsg=..,
    sender=.., isGroupMsg=..)] on arguments already evaluated *)
Definition mk_WebhookMessage (event0 session_ body_ type0 isNewMsg_ : pyval)
    (sender_ : Sender) (isGroupMsg_ : pyval) : result WebhookMessage :=
  match validate_str env event0, validate_str env session_, validate_str env body_,
        validate_str env type0, validate_bool env isNewMsg_, validate_bool env isGroupMsg_ with
  | Some e, Some s, Some b, Some t, Some n, Some g =>
      Ok {| event := e; session := s; body := b; type := t; isNewMsg := n;
            sender := sender_; isGroupMsg := g |}
  | _, _, _, _, _, _ => Raise (ValidationError "WebhookMessage")
  end.

(** Lines 172-182: the arguments are evaluated from left to right, then the
    model is built. *)
Definition parse_message (data : dict) (message_text : pyval) : result WebhookMessage :=
  result_bind (dict_getitem data "event") (λ event0,
  result_bind (dict_getitem data "session") (λ session_,
  result_bind (dict_getitem data "type") (λ type0,
  result_bind (dict_getitem data "isNewMsg") (λ isNewMsg_,
  result_bind (dict_getitem data "sender") (λ sender0,
  result_bind (subscript sender0 "id") (λ id_,
  result_bind (dict_getitem data "sender") (λ sender1,
  result_bind (subscript sender1 "isUser") (λ isUser_,
  result_bind (mk_Sender id_ isUser_) (λ sender_,
  result_bind (dict_getitem data "isGroupMsg") (λ isGroupMsg_,
  mk_WebhookMessage event0 session_ message_text type0 isNewMsg_ sender_ isGroupMsg_)))))))))).

(** The dict a handler returns: its ["status"] and ["message"] *)
Record ack : Type := {
  status : string;
  message : string;
}.

(** [asyncio.create_task(process_aggregated_messages(..))] followed by
    [processing_tasks[sender_id] = task] *)
Definition create_task (sender_id session_ : string) (is_user is_group : bool) : M nat :=
  λ st,
    let tid := List.length (tasks st) in
    (set_tasks (λ ts, (ts ++ [{| task_sender_id := sender_id; task_session := session_;
                               task_is_user := is_user; task_is_group := is_group;
                               task_st := Created |}])%list) st,
     Ok tid).

(** The conjunction of lines 145-150 *)
Definition matches_criteria (data : dict) : bool :=
  eq_str (dict_get data "event") "onmessage"
  && eq_True (dict_get data "isNewMsg")
  && in_allowed_types (dict_get data "type").

Definition webhook_handler (data : dict) (io : audio_io) : M ack :=
  try_except
    (if matches_criteria data then
       try_except
         (message_text <-
            (if eq_str (dict_get data "type") "ptt" then
               try_except
                 (text <- transcribe_base64_audio io (dict_get_default data "body" (PStr "")) ;;
                  ret (PStr text))
                 (λ e, raise (HTTPException 422
                                ("Error processing audio: " +:+ str_exn env e)))
             else ret (dict_get_default data "body" (PStr ""))) ;;
          message_ <- lift (parse_message data message_text) ;;
          let sender_id := id (sender message_) in
          modify (append_buffer sender_id (body message_)) ;;;
          known <- gets (λ st, bool_decide (is_Some (processing_tasks st !! sender_id))) ;;
          if negb known then
            task_ <- create_task sender_id (session message_)
                       (isUser (sender message_)) (isGroupMsg message_) ;;
            modify (set_processing_tasks (<[sender_id := task_]>)) ;;;
            ret {| status := "aggregating";
                   message := "Message received and being aggregated" |}
          else
            ret {| status := "aggregating";
                   message := "Message added to existing aggregation window" |})
         (λ e, raise (HTTPException 422 ("Error parsing message: " +:+ str_exn env e)))
     else
       ret {| status := "received";
              message := "Message received but not processed (not matching criteria)" |})
    (λ e, raise (HTTPException 500 ("Error processing webhook: " +:+ str_exn env e))).

(** ** The aggregation task *)

(** The [except Exception] block of [process_aggregated_messages]; the
    exception is raised again and ends the task. *)
Definition on_exception (tid : nat) (sender_id : string) (e : exn) (st : State) : State :=
  set_task_st tid (Failed e) (del_task sender_id (set_buffer sender_id [] st)).

(** From the first run of the task to [asyncio.sleep(int(WAIT_TIME))] *)
Definition task_start (tid : nat) (t : task) (st : State) : State :=
  match int_WAIT_TIME env with
  | Raise e => on_exception tid (task_sender_id t) e st
  | Ok w => set_task_st tid (Sleeping (clock st + 1000 * w)) st
  end.

(** From the end of the sleep to [await main(phone_number, combined_message)] *)
Definition task_wake (tid : nat) (t : task) (st : State) : State :=
  let sender_id := task_sender_id t in
  let messages := buffer st sender_id in
  let st := touch_buffer sender_id st in
  match messages with
  | [] => set_task_st tid (Returned None) st
  | _ :: _ =>
      let combined_message := join " " messages in
      let st := set_buffer sender_id [] st in
      let st := del_task sender_id st in
      let phone_number := before_at sender_id in
      let st := add_effect (CallAgent sender_id phone_number combined_message) st in
      set_task_st tid (InAgent phone_number combined_message) st
  end.

(** From the return of [main] to the end of the task *)
Definition task_agent_done (tid : nat) (t : task) (combined_message : string)
    (r : result pyval) (st : State) : State :=
  match r with
  | Ok agent_response =>
      set_task_st tid
        (Returned (Some {| dr_session := task_session t; dr_message := combined_message;
                           dr_sender_id := task_sender_id t; dr_is_user := task_is_user t;
                           dr_is_group := task_is_group t;
                           dr_agent_response := agent_response |})) st
  | Raise e => on_exception tid (task_sender_id t) e st
  end.

(** Where the event loop resumes the coroutine *)
Inductive resume_point : Type :=
| AtStart
| AfterSleep
| AfterAgent (combined_message : string) (r : result pyval).

(** [process_aggregated_messages], one segment at a time *)
Definition process_aggregated_messages (tid : nat) (t : task) (p : resume_point)
    (st : State) : State :=
  match p with
  | AtStart => task_start tid t st
  | AfterSleep => task_wake tid t st
  | AfterAgent combined_message r => task_agent_done tid t combined_message r st
  end.

(** ** The event loop *)

Inductive loop_event : Type :=
| Webhook (data : dict) (io : audio_io)
| TaskStart (tid : nat)
| TaskWake (tid : nat)
| AgentDone (tid : nat) (r : result pyval).

(** One step of the loop at time [now].  [None] when the event cannot
    happen in [st]: time does not go back, a task runs its segments in
    order, and [asyncio.sleep] does not return before its deadline.  A
    webhook yields the HTTP outcome; a task segment yields none, since no
    request awaits the task. *)
Definition step (now : Z) (ev : loop_event) (st : State) : option (State * option (result ack)) :=
  if decide (clock st ≤ now)%Z then
    let st := set_clock now st in
    match ev with
    | Webhook data io =>
        let '(st', r) := webhook_handler data io st in Some (st', Some r)
    | TaskStart tid =>
        match tasks st !! tid with
        | Some t =>
            match task_st t with
            | Created => Some (process_aggregated_messages tid t AtStart st, None)
            | _ => None
            end
        | None => None
        end
    | TaskWake tid =>
        match tasks st !! tid with
        | Some t =>
            match task_st t with
            | Sleeping deadline =>
                if decide (deadline ≤ now)%Z
                then Some (process_aggregated_messages tid t AfterSleep st, None)
                else None
            | _ => None
            end
        | None => None
        end
    | AgentDone tid r =>
        match tasks st !! tid with
        | Some t =>
            match task_st t with
            | InAgent _ combined_message =>
                Some (process_aggregated_messages tid t (AfterAgent combined_message r) st,
                      None)
            | _ => None
            end
        | None => None
        end
    end
  else None.

Fixpoint run (trace : list (Z * loop_event)) (st : State) : option State :=
  match trace with
  | [] => Some st
  | (now, ev) :: trace' =>
      match step now ev st with
      | Some (st', _) => run trace' st'
      | None => None
      end
  end.

End Service.


(** ** What the handler does, in one piece

    [normalize] is the message a payload is turned into, [None] when the
    payload is skipped or rejected; [enqueue] is lines 184-199.  The lemmas
    below relate [webhook_handler] to them. *)

Definition received : ack :=
  {| status := "received";
     message := "Message received but not processed (not matching criteria)" |}.

Definition aggregating (known : bool) : ack :=
  {| status := "aggregating";
     message := if known then "Message added to existing aggregation window"
                else "Message received and being aggregated" |}.

Section Ingress.
Context (env : Env).

(** The outcome of [transcribe_base64_audio], without the state *)
Definition transcription (io : audio_io) (base64_audio : pyval) : result string :=
  match b64decode env base64_audio with
  | Raise _ => Raise (UnboundLocalError "tmp_file_path")
  | Ok _ =>
      if write_ok io then
        if close_ok io then
          if GROQ_CLIENT_bound env then whisper io else Raise (NameError "GROQ_CLIENT")
        else Raise OSError
      else Raise (UnboundLocalError "tmp_file_path")
  end.

(** The text the handler goes on with; an exception of the audio step is
    caught and replaced (lines 163-169). *)
Definition message_text (data : dict) (io : audio_io) : result pyval :=
  if eq_str (dict_get data "type") "ptt" then
    match transcription io (dict_get_default data "body" (PStr "")) with
    | Ok text => Ok (PStr text)
    | Raise e => Raise (HTTPException 422 ("Error processing audio: " +:+ str_exn env e))
    end
  else Ok (dict_get_default data "body" (PStr "")).

(** The outcome of lines 152-182 *)
Definition ingress (data : dict) (io : audio_io) : result WebhookMessage :=
  result_bind (message_text data io) (parse_message env data).

Definition normalize (data : dict) (io : audio_io) : option WebhookMessage :=
  if matches_criteria data then
    match ingress data io with
    | Ok m => Some m
    | Raise _ => None
    end
  else None.

(** What [except Exception] of line 212 and then of line 225 make of an
    exception [e] *)
Definition rejection (e : exn) : exn :=
  HTTPException 500
    ("Error processing webhook: " +:+
     str_exn env (HTTPException 422 ("Error parsing message: " +:+ str_exn env e))).

(** The task the handler creates for a message *)
Definition new_task (m : WebhookMessage) : task :=
  {| task_sender_id := id (sender m); task_session := session m;
     task_is_user := isUser (sender m); task_is_group := isGroupMsg m;
     task_st := Created |}.

Definition enqueue (m : WebhookMessage) (st : State) : State :=
  let sender_id := id (sender m) in
  let st := append_buffer sender_id (body m) st in
  match processing_tasks st !! sender_id with
  | Some _ => st
  | None =>
      set_processing_tasks (<[sender_id := List.length (tasks st)]>)
        (set_tasks (λ ts, (ts ++ [new_task m])%list) st)
  end.

(** The state after the audio step of the handler *)
Definition after_audio (data : dict) (io : audio_io) (st : State) : State :=
  if matches_criteria data && eq_str (dict_get data "type") "ptt"
  then fst (transcribe_base64_audio env io (dict_get_default data "body" (PStr "")) st)
  else st.

(** Which way [transcribe_base64_audio] is left *)
Inductive exit_path : Type :=
| ExitSuccess
| ExitTranscriptionFailure
| ExitDecodeFailure
| ExitWriteFailure
| ExitCloseFailure.

Definition exit_path_of (io : audio_io) (base64_audio : pyval) : exit_path :=
  match b64decode env base64_audio with
  | Raise _ => ExitDecodeFailure
  | Ok _ =>
      if write_ok io then
        if close_ok io then
          if GROQ_CLIENT_bound env then
            match whisper io with
            | Ok _ => ExitSuccess
            | Raise _ => ExitTranscriptionFailure
            end
          else ExitTranscriptionFailure
        else ExitCloseFailure
      else ExitWriteFailure
  end.

(** ** Runs of the service, seen from one sender *)



Definition reachable (st : State) : Prop :=
  ∃ trace, run env trace init = Some st.

(** A sender with a handle has messages waiting. *)
Definition handle_has_messages (st : State) : Prop :=
  ∀ sender_id, is_Some (processing_tasks st !! sender_id) → buffer st sender_id ≠ [].

(** The lifecycle as the specification words it: the handle of a window
    stays until the dispatch of that window completes, so a task that
    waits for the agent is still its sender's handle. *)
Definition handle_kept_until_completion : Prop :=
  ∀ st tid t phone_number combined_message,
    reachable st →
    tasks st !! tid = Some t →
    task_st t = InAgent phone_number combined_message →
    processing_tasks st !! task_sender_id t = Some tid.

End Ingress.

(** The texts handed to the agent for [sender_id], oldest first *)
Fixpoint dispatches (sender_id : string) (l : list effect) : list string :=
  match l with
  | [] => []
  | CallAgent s _ text :: l' =>
      if String.eqb s sender_id then text :: dispatches sender_id l'
      else dispatches sender_id l'
  | _ :: l' => dispatches sender_id l'
  end.

(** A task that has not reached the end of its sleep *)
Definition pending (ts : task_state) : bool :=
  match ts with
  | Created | Sleeping _ => true
  | _ => false
  end.

(** A task that has not finished *)
Definition live (ts : task_state) : bool :=
  match ts with
  | Created | Sleeping _ | InAgent _ _ => true
  | _ => false
  end.



(** ** graph_utils.py: process_chunks *)

Inductive output : Type :=
| Print (text style : string)
| GTTS (text lang : string)
| Save (path : string)
| SendVoice (path phone_number : string).

(** What the outside world answers during one call of [process_chunks] *)
Record voice_io : Type := {
  (** [rich.print(text, style=style)]: the console reads the text as
      markup and raises on markup it cannot match *)
  rich_print : string → string → result unit;
  audio_tmp_name : string;
  gTTS_new : result unit;
  gTTS_save : result unit;
  send_voice : result unit;
}.

Fixpoint is_prefix (p s : string) : bool :=
  match p, s with
  | EmptyString, _ => true
  | String a p', String b s' => Ascii.eqb a b && is_prefix p' s'
  | String _ _, EmptyString => false
  end.

Fixpoint is_substring (p s : string) : bool :=
  is_prefix p s ||
  match s with
  | EmptyString => false
  | String _ s' => is_substring p s'
  end.

(** ["messages" in v] *)
Definition contains_messages (v : pyval) : result bool :=
  match v with
  | PDict d => Ok (bool_decide (is_Some (dict_lookup d "messages")))
  | PStr s => Ok (is_substring "messages" s)
  | PList l => Ok (existsb (λ x, eq_str x "messages") l)
  | PAIMessage _ _ => Ok false
  | _ => Raise TypeError
  end.

(** [chunk[list(chunk.keys())[0]]] *)
Definition first_value (chunk : dict) : result pyval :=
  match chunk with
  | [] => Raise IndexError
  | (_, v) :: _ => Ok v
  end.

(** The line feed of the f-strings *)
Definition nl : string := String (ascii_of_nat 10) EmptyString.

Section Chunks.
Context (env : Env).

(** One call of [rich.print]: the text appears unless the console raises. *)
Definition print (io : voice_io) (text style : string) : list output * result unit :=
  match rich_print io text style with
  | Ok _ => ([Print text style], Ok tt)
  | Raise e => ([], Raise e)
  end.

(** [for answer in agent_answer: rich.print(..)] *)
Fixpoint print_answers (io : voice_io) (agent_answer : list pyval)
    : list output * result unit :=
  match agent_answer with
  | [] => ([], Ok tt)
  | answer :: rest =>
      match print io (nl +:+ "Agent:" +:+ nl +:+ str_val env answer) "black on white" with
      | (out, Raise e) => (out, Raise e)
      | (out, Ok _) =>
          let '(out', r) := print_answers io rest in ((out ++ out')%list, r)
      end
  end.

(** The branch of a string answer of an [AIMessage] *)
Definition answer_str (io : voice_io) (agent_answer : string)
    (tool_calls : option (list pyval)) (phone_number : string) : list output * result unit :=
  match tool_calls with
  | Some (tool_call :: _) =>
      match subscript tool_call "name" with
      | Raise e => ([], Raise e)
      | Ok tool_name =>
          match subscript tool_call "args" with
          | Raise e => ([], Raise e)
          | Ok tool_query =>
              print io (nl +:+ "The agent is calling the tool [on deep_sky_blue1]"
                        +:+ str_val env tool_name
                        +:+ "[/on deep_sky_blue1] with the query [on deep_sky_blue1]"
                        +:+ str_val env tool_query
                        +:+ "[/on deep_sky_blue1]. Please wait for the agent's answer[deep_sky_blue1]...[/deep_sky_blue1]")
                    "deep_sky_blue1"
          end
      end
  | _ =>
      match print io (nl +:+ "Agent:" +:+ nl +:+ agent_answer) "black on white" with
      | (out, Raise e) => (out, Raise e)
      | (out, Ok _) =>
          let spoken := (out ++ [GTTS agent_answer "pt-br"])%list in
          match gTTS_new io with
          | Raise e => (spoken, Raise e)
          | Ok _ =>
              let audio_path := audio_tmp_name io in
              let saved := (spoken ++ [Save audio_path])%list in
              match gTTS_save io with
              | Raise e => (saved, Raise e)
              | Ok _ => ((saved ++ [SendVoice audio_path phone_number])%list, send_voice io)
              end
          end
      end
  end.

Definition process_chunks (io : voice_io) (chunk : pyval) (phone_number : string)
    : list output * result unit :=
  match chunk with
  | PDict d =>
      match first_value d with
      | Raise e => ([], Raise e)
      | Ok v =>
          match contains_messages v with
          | Raise e => ([], Raise e)
          | Ok false => ([], Ok tt)
          | Ok true =>
              match subscript v "messages" with
              | Raise e => ([], Raise e)
              | Ok (PAIMessage agent_answer tool_calls) =>
                  match agent_answer with
                  | PList l => print_answers io l
                  | PStr a => answer_str io a tool_calls phone_number
                  | _ => ([], Ok tt)
                  end
              | Ok _ => ([], Ok tt)
              end
          end
      end
  | _ => ([], Ok tt)
  end.

(** [hasattr(message, "tool_calls") and message.tool_calls] is false *)
Definition no_tool_call (tool_calls : option (list pyval)) : bool :=
  match tool_calls with
  | Some (_ :: _) => false
  | _ => true
  end.

(** A chunk whose first node carries a direct answer: an [AIMessage] with
    a string content and no tool call. *)
Definition direct_answer_chunk (node answer : string) : pyval :=
  PDict [(node, PDict [("messages", PAIMessage (PStr answer) (Some []))])].

End Chunks.

(** ** A concrete environment, to run the model *)

Module Sample.

(** [binascii.a2b_base64] in its default, non-strict mode: characters
    outside the alphabet are skipped, a complete pad sequence ends the
    input, and data left in an unfinished quad is an error. *)
Definition b64_index (c : ascii) : option N :=
  let n := N_of_ascii c in
  if ((65 <=? n) && (n <=? 90))%N then Some (n - 65)%N
  else if ((97 <=? n) && (n <=? 122))%N then Some (n - 71)%N
  else if ((48 <=? n) && (n <=? 57))%N then Some (n + 4)%N
  else if (n =? 43)%N then Some 62%N
  else if (n =? 47)%N then Some 63%N
  else None.

Definition byte_of_N (n : N) : Byte.byte :=
  default Byte.x00 (Byte.of_N (n mod 256)%N).

Fixpoint a2b_base64 (s : string) (quad_pos pads : nat) (leftchar : N)
    : result (list Byte.byte) :=
  match s with
  | EmptyString => if Nat.eqb quad_pos 0 then Ok [] else Raise BinasciiError
  | String c s' =>
      if Ascii.eqb c "="%char then
        if Nat.leb 2 quad_pos && Nat.leb 4 (quad_pos + S pads) then Ok []
        else a2b_base64 s' quad_pos (if Nat.leb 2 quad_pos then S pads else pads) leftchar
      else
        match b64_index c with
        | None => a2b_base64 s' quad_pos pads leftchar
        | Some v =>
            match quad_pos with
            | 0 => a2b_base64 s' 1 0 v
            | 1 => result_bind (a2b_base64 s' 2 0 (N.land v 15))
                     (λ l, Ok (byte_of_N (N.lor (N.shiftl leftchar 2) (N.shiftr v 4)) :: l))
            | 2 => result_bind (a2b_base64 s' 3 0 (N.land v 3))
                     (λ l, Ok (byte_of_N (N.lor (N.shiftl leftchar 4) (N.shiftr v 2)) :: l))
            | _ => result_bind (a2b_base64 s' 0 0 0)
                     (λ l, Ok (byte_of_N (N.lor (N.shiftl leftchar 6) v) :: l))
            end
        end
  end.

Fixpoint is_ascii (s : string) : bool :=
  match s with
  | EmptyString => true
  | String c s' => (N_of_ascii c <? 128)%N && is_ascii s'
  end.

Definition py_b64decode (v : pyval) : result (list Byte.byte) :=
  match v with
  | PStr s => if is_ascii s then a2b_base64 s 0 0 0 else Raise ValueError
  | _ => Raise TypeError
  end.

(** pydantic in strict mode: a field accepts values of its own type only. *)
Definition strict_str (v : pyval) : option string :=
  match v with
  | PStr s => Some s
  | _ => None
  end.

Definition strict_bool (v : pyval) : option bool :=
  match v with
  | PBool b => Some b
  | _ => None
  end.

Definition show_exn (e : exn) : string :=
  match e with
  | KeyError k => "'" +:+ k +:+ "'"
  | IndexError => "list index out of range"
  | TypeError => "type error"
  | ValueError => "value error"
  | ValidationError f => "validation error for " +:+ f
  | BinasciiError => "Incorrect padding"
  | UnboundLocalError n => "cannot access local variable '" +:+ n +:+ "'"
  | NameError n => "name '" +:+ n +:+ "' is not defined"
  | OSError => "No space left on device"
  | CollaboratorError m => m
  | HTTPException c d => pretty c +:+ ": " +:+ d
  end.

Definition show_val (v : pyval) : string :=
  match v with
  | PNone => "None"
  | PBool b => if b then "True" else "False"
  | PInt z => pretty z
  | PStr s => s
  | _ => "..."
  end.

(** [WAIT_TIME=1], [LANGUAGE=pt], and a transcription client bound to
    [GROQ_CLIENT] *)
Definition env : Env :=
  {| int_WAIT_TIME := Ok 1%Z;
     LANG := Some "pt";
     GROQ_CLIENT_bound := true;
     b64decode := py_b64decode;
     validate_str := strict_str;
     validate_bool := strict_bool;
     str_exn := show_exn;
     str_val := show_val;
     validate_str_PStr := λ _, eq_refl;
     validate_bool_PBool := λ _, eq_refl |}.

(** A payload that passes the filter and parses *)
Definition payload (type0 sender_id body_ : string) : dict :=
  [("event", PStr "onmessage"); ("session", PStr "s1"); ("body", PStr body_);
   ("type", PStr type0); ("isNewMsg", PBool true);
   ("sender", PDict [("id", PStr sender_id); ("isUser", PBool true)]);
   ("isGroupMsg", PBool false)].

Definition audio (text : string) : audio_io :=
  {| tmp_name := "/tmp/a.ogg"; write_ok := true; close_ok := true; whisper := Ok text |}.

Definition chat (sender_id body_ : string) : loop_event :=
  Webhook (payload "chat" sender_id body_) (audio "").

(** A voice note: the payload's body is base64 audio. *)
Definition ptt (sender_id base64_audio : string) : dict := payload "ptt" sender_id base64_audio.

(** The state a trace leads to from the initial state *)
Definition after (trace : list (Z * loop_event)) : State :=
  default init (run env trace init).

Definition alice : string := "5511999@c.us".

(** Scenario A up to the moment the window is about to close *)
Definition burst : list (Z * loop_event) :=
  [(0, chat alice "Oi"); (0, TaskStart 0); (300, chat alice "tudo bem?")]%Z.

(** Scenario A, with another sender writing in between *)
Definition scenario_A : list (Z * loop_event) :=
  [(0, chat alice "Oi"); (0, TaskStart 0); (100, chat "5522888@c.us" "Bom dia");
   (300, chat alice "tudo bem?"); (400, TaskStart 1); (1000, TaskWake 0);
   (1400, TaskWake 1)]%Z.






(** A payload without its ["session"] field *)
Definition no_session : dict :=
  [("event", PStr "onmessage"); ("body", PStr "hi"); ("type", PStr "chat");
   ("isNewMsg", PBool true);
   ("sender", PDict [("id", PStr alice); ("isUser", PBool true)]);
   ("isGroupMsg", PBool false)].

(** A console that prints every text without a bracket as it is, and
    refuses the others rather than read their markup *)
Definition plain_print (text style : string) : result unit :=
  if mentions "[" text then Raise (CollaboratorError "MarkupError") else Ok tt.

Definition voice : voice_io :=
  {| rich_print := plain_print; audio_tmp_name := "/tmp/b.mp3"; gTTS_new := Ok tt;
     gTTS_save := Ok tt; send_voice := Ok tt |}.

(** [WAIT_TIME=0.5]: [int("0.5")] raises [ValueError]. *)
Definition env_bad_wait : Env :=
  {| int_WAIT_TIME := Raise ValueError;
     LANG := Some "pt";
     GROQ_CLIENT_bound := true;
     b64decode := py_b64decode;
     validate_str := strict_str;
     validate_bool := strict_bool;
     str_exn := show_exn;
     str_val := show_val;
     validate_str_PStr := λ _, eq_refl;
     validate_bool_PBool := λ _, eq_refl |}.

(** The module as it is in the repository: nothing binds [GROQ_CLIENT]. *)
Definition env_shipped : Env :=
  {| int_WAIT_TIME := Ok 1%Z;
     LANG := Some "pt";
     GROQ_CLIENT_bound := false;
     b64decode := py_b64decode;
     validate_str := strict_str;
     validate_bool := strict_bool;
     str_exn := show_exn;
     str_val := show_val;
     validate_str_PStr := λ _, eq_refl;
     validate_bool_PBool := λ _, eq_refl |}.

End Sample.


(** ** One sender's view of a step

    Used to follow a burst of one sender through a run in which the other
    senders are active too. *)

Section Views.
Context (sender_id : string).








End Views.

(** ** Further notions for the properties of the code *)

Section Concerns.
Context (env : Env).

(** The sender whose entries an event can touch: the sender of the message
    a webhook buffers, the sender a task was created for. *)
Definition concerns (st : State) (ev : loop_event) : option string :=
  match ev with
  | Webhook data io =>
      match normalize env data io with
      | Some m => Some (id (sender m))
      | None => None
      end
  | TaskStart tid | TaskWake tid | AgentDone tid _ => task_sender_id <$> tasks st !! tid
  end.








End Concerns.

(** An effect is a call of the agent. *)
Definition is_CallAgent (e : effect) : bool :=
  match e with
  | CallAgent _ _ _ => true
  | _ => false
  end.

Definition is_Print (o : output) : bool :=
  match o with
  | Print _ _ => true
  | _ => false
  end.

(** The state a sender's window is in, in every reachable state: messages
    wait exactly when the sender has a handle, and the handle is a task of
    that sender that has not reached the end of its sleep. *)
Definition window_invariant (st : State) : Prop :=
  ∀ sender_id,
    (buffer st sender_id ≠ [] ↔ is_Some (processing_tasks st !! sender_id))
    ∧ (∀ tid, processing_tasks st !! sender_id = Some tid →
         ∃ t, tasks st !! tid = Some t ∧ task_sender_id t = sender_id
              ∧ pending (task_st t) = true).

(** No task has gone past its first segment. *)
Definition never_slept (st : State) : Prop :=
  ∀ tid t, tasks st !! tid = Some t →
    task_st t = Created ∨ ∃ e, task_st t = Failed e.


(** ** config.py *)

Module Config.

Inductive outcome (A : Type) : Type :=
| Return (a : A)
| RaiseValueError (msg : string)
| RaiseKeyError (key : string)
| RaiseTypeError.
Arguments Return {A} a.
Arguments RaiseValueError {A} msg.
Arguments RaiseKeyError {A} key.
Arguments RaiseTypeError {A}.

(** [not v] for the value [os.getenv] returns *)
Definition falsy (v : option string) : bool :=
  match v with
  | None => true
  | Some EmptyString => true
  | Some (String _ _) => false
  end.

(** [load_environment()], on the environment as [load_dotenv()] leaves
    it.  The dict it returns is an association list. *)
Definition load_environment (environ : gmap string string)
    : outcome (list (string * option string)) :=
  let required_vars := [("GOOGLE_API_KEY", environ !! "GOOGLE_API_KEY")] in
  let missing := map fst (List.filter (λ kv, falsy (snd kv)) required_vars) in
  match missing with
  | [] => Return required_vars
  | _ :: _ => RaiseValueError ("Missing environment variables: " +:+ join ", " missing)
  end.

(** The call [ChatGoogleGenerativeAI(model=.., temperature=..,
    google_api_key=..)], by its arguments *)
Record ChatGoogleGenerativeAI : Type := {
  model : pyval;
  temperature : pyval;
  google_api_key : option string;
}.

(** [llm_config[k]] *)
Definition config_item (llm_config : pyval) (k : string) : outcome pyval :=
  match subscript llm_config k with
  | Ok v => Return v
  | Raise (KeyError k') => RaiseKeyError k'
  | Raise _ => RaiseTypeError
  end.

(** [env[k]] on the dict [load_environment] returned *)
Fixpoint env_item (env : list (string * option string)) (k : string) : option string :=
  match env with
  | [] => None
  | (k', v) :: env' => if String.eqb k' k then v else env_item env' k
  end.

(** [setup_model(llm_config)]; [None] is the result of falling off the end
    of the function. *)
Definition setup_model (environ : gmap string string) (llm_config : pyval)
    : outcome (option ChatGoogleGenerativeAI) :=
  match load_environment environ with
  | Return env =>
      match config_item llm_config "provider" with
      | Return provider =>
          if eq_str provider "google" then
            match config_item llm_config "model" with
            | Return model_ =>
                match config_item llm_config "temperature" with
                | Return temperature_ =>
                    Return (Some {| model := model_; temperature := temperature_;
                                    google_api_key := env_item env "GOOGLE_API_KEY" |})
                | RaiseValueError m => RaiseValueError m
                | RaiseKeyError k => RaiseKeyError k
                | RaiseTypeError => RaiseTypeError
                end
            | RaiseValueError m => RaiseValueError m
            | RaiseKeyError k => RaiseKeyError k
            | RaiseTypeError => RaiseTypeError
            end
          else Return None
      | RaiseValueError m => RaiseValueError m
      | RaiseKeyError k => RaiseKeyError k
      | RaiseTypeError => RaiseTypeError
      end
  | RaiseValueError m => RaiseValueError m
  | RaiseKeyError k => RaiseKeyError k
  | RaiseTypeError => RaiseTypeError
  end.

End Config.

(** * Properties *)

(** ** The handler against its summary *)

Section HandlerFacts.
Context (env : Env).

Lemma transcribe_result io base64_audio st :
  snd (transcribe_base64_audio env io base64_audio st) = transcription env io base64_audio.
Proof.
  unfold transcribe_base64_audio, transcribe_try, transcription.
  destruct (b64decode env base64_audio); [|done].
  destruct (write_ok io); [|done].
  destruct (close_ok io), (GROQ_CLIENT_bound env); simpl; by case_decide.
Qed.

(** The audio step leaves the two maps, the tasks and the clock alone, and
    calls no agent. *)
Lemma transcribe_frame io base64_audio st :
  let st' := fst (transcribe_base64_audio env io base64_audio st) in
  message_buffers st' = message_buffers st ∧ processing_tasks st' = processing_tasks st
  ∧ tasks st' = tasks st ∧ clock st' = clock st
  ∧ (effects st' = effects st
     ∨ effects st' = (effects st ++ [Transcribe (tmp_name io) (LANG env)])%list).
Proof.
  unfold transcribe_base64_audio, transcribe_try.
  destruct (b64decode env base64_audio); [|simpl; tauto].
  destruct (write_ok io); [|simpl; tauto].
  destruct (close_ok io), (GROQ_CLIENT_bound env); simpl; case_decide; simpl; tauto.
Qed.

Lemma after_audio_frame data io st :
  let st' := after_audio env data io st in
  message_buffers st' = message_buffers st ∧ processing_tasks st' = processing_tasks st
  ∧ tasks st' = tasks st ∧ clock st' = clock st
  ∧ (effects st' = effects st
     ∨ effects st' = (effects st ++ [Transcribe (tmp_name io) (LANG env)])%list).
Proof.
  unfold after_audio.
  destruct (_ && _); [apply transcribe_frame | tauto].
Qed.

Lemma webhook_handler_skipped data io st :
  matches_criteria data = false →
  webhook_handler env data io st = (st, Ok received).
Proof. intros H. unfold webhook_handler, try_except. by rewrite H. Qed.

Lemma webhook_handler_accepted data io st m :
  normalize env data io = Some m →
  webhook_handler env data io st =
    (enqueue m (after_audio env data io st),
     Ok (aggregating (bool_decide (is_Some (processing_tasks st !! id (sender m)))))).
Proof.
  unfold normalize, ingress, message_text, after_audio, webhook_handler.
  destruct (matches_criteria data); [|done]. simpl.
  unfold try_except at 1 2. unfold bind at 1.
  destruct (eq_str (dict_get data "type") "ptt").
  - unfold try_except, bind at 1.
    pose proof (transcribe_result io (dict_get_default data "body" (PStr "")) st) as Hr.
    pose proof (transcribe_frame io (dict_get_default data "body" (PStr "")) st) as Hf.
    destruct (transcribe_base64_audio env io _ st) as [st1 r]. simpl in Hr, Hf. subst r.
    destruct (transcription env io _) as [text|]; [|done]. simpl.
    unfold bind, lift, modify, gets, ret, create_task, enqueue.
    destruct (parse_message env data (PStr text)) as [m'|]; [|done].
    intros [= ->]. simpl.
    destruct Hf as (_ & Hp & _). rewrite Hp.
    by destruct (processing_tasks st !! id (sender m)).
  - unfold bind, lift, modify, gets, ret, create_task, enqueue. simpl.
    destruct (parse_message env data _) as [m'|]; [|done].
    intros [= ->]. simpl.
    by destruct (processing_tasks st !! id (sender m)).
Qed.

Lemma webhook_handler_rejected data io st e :
  matches_criteria data = true →
  ingress env data io = Raise e →
  webhook_handler env data io st = (after_audio env data io st, Raise (rejection env e)).
Proof.
  unfold ingress, message_text, after_audio, webhook_handler, rejection.
  intros ->. simpl.
  unfold try_except at 1 2. unfold bind at 1.
  destruct (eq_str (dict_get data "type") "ptt").
  - unfold try_except, bind at 1.
    pose proof (transcribe_result io (dict_get_default data "body" (PStr "")) st) as Hr.
    destruct (transcribe_base64_audio env io _ st) as [st1 r]. simpl in Hr. subst r.
    destruct (transcription env io _) as [text|e']; simpl.
    + unfold bind, lift.
      destruct (parse_message env data (PStr text)) as [m'|e']; [done|].
      by intros [= ->].
    + by intros [= <-].
  - unfold bind, lift. simpl.
    destruct (parse_message env data _) as [m'|e']; [done|].
    by intros [= ->].
Qed.

End HandlerFacts.

(** ** Ingress: filtering, rejection, buffering *)

Section IngressProperties.
Context (env : Env).

Lemma buffer_append_buffer s x st :
  buffer (append_buffer s x st) s = (buffer st s ++ [x])%list.
Proof. unfold buffer, append_buffer. simpl. by rewrite lookup_insert_eq. Qed.

Lemma buffer_append_buffer_ne s s' x st :
  s ≠ s' → buffer (append_buffer s x st) s' = buffer st s'.
Proof. intros. unfold buffer, append_buffer. simpl. by rewrite lookup_insert_ne. Qed.

Lemma after_audio_buffer data io st s :
  buffer (after_audio env data io st) s = buffer st s.
Proof.
  unfold buffer. by destruct (after_audio_frame env data io st) as (-> & _).
Qed.

(** A payload that is not buffered changes neither map and creates no
    task. *)
Lemma webhook_handler_not_buffered data io st :
  normalize env data io = None →
  let st' := fst (webhook_handler env data io st) in
  message_buffers st' = message_buffers st ∧ processing_tasks st' = processing_tasks st
  ∧ tasks st' = tasks st.
Proof.
  intros Hn. destruct (matches_criteria data) eqn:Hc.
  - unfold normalize in Hn. rewrite Hc in Hn.
    destruct (ingress env data io) as [|e] eqn:Hi; [done|].
    rewrite (webhook_handler_rejected env data io st e Hc Hi). simpl.
    destruct (after_audio_frame env data io st) as (? & ? & ? & _). done.
  - by rewrite webhook_handler_skipped.
Qed.

(** Whatever goes wrong inside the handler leaves it as an HTTP 500: the
    [HTTPException(422)] of line 214 is raised inside the outer [try] and
    caught by the [except Exception] of line 225. *)
Lemma webhook_handler_raises_500 data io st e :
  snd (webhook_handler env data io st) = Raise e →
  ∃ detail, e = HTTPException 500 detail.
Proof.
  destruct (matches_criteria data) eqn:Hc.
  - destruct (ingress env data io) as [m|e'] eqn:Hi.
    + assert (normalize env data io = Some m) as Hn
        by (unfold normalize; by rewrite Hc, Hi).
      by rewrite (webhook_handler_accepted env data io st m Hn).
    + rewrite (webhook_handler_rejected env data io st e' Hc Hi). simpl.
      intros [= <-]. unfold rejection. eauto.
  - by rewrite webhook_handler_skipped.
Qed.


(** C6. A payload whose event is not ["onmessage"], or whose [isNewMsg] is
    not true (does not compare equal to [True], as line 147 tests it), or
    whose type is outside the allow-list, is answered ["received"], and the
    whole state, with the buffers and the window map, is as before. *)
Theorem filter_correctness data io st :
  eq_str (dict_get data "event") "onmessage" = false
  ∨ eq_True (dict_get data "isNewMsg") = false
  ∨ in_allowed_types (dict_get data "type") = false →
  webhook_handler env data io st = (st, Ok received).
Proof.
  intros H. apply webhook_handler_skipped. unfold matches_criteria.
  destruct H as [-> | [-> | ->]]; rewrite ?andb_false_r; done.
Qed.

(** The audio step, when the service answered, has called it on the
    temporary file. *)
Lemma transcribe_effect io base64_audio st text :
  transcription env io base64_audio = Ok text →
  effects (fst (transcribe_base64_audio env io base64_audio st))
  = (effects st ++ [Transcribe (tmp_name io) (LANG env)])%list.
Proof.
  unfold transcription, transcribe_base64_audio, transcribe_try.
  destruct (b64decode env base64_audio); [|done].
  destruct (write_ok io); [|done].
  destruct (close_ok io); [|done].
  destruct (GROQ_CLIENT_bound env); [|done].
  intros _. simpl. by case_decide.
Qed.

(** C9. For a ptt payload that passes the filter, transcription runs
    first: when it fails the answer is the audio error whatever the other
    fields are, and when it succeeds and the fields then fail to parse, the
    transcription service has been called, while the buffers, the window
    map and the tasks are as before. *)
Theorem transcription_precedes_validation data io st :
  matches_criteria data = true →
  eq_str (dict_get data "type") "ptt" = true →
  let base64_audio := dict_get_default data "body" (PStr "") in
  let st' := fst (webhook_handler env data io st) in
  (∀ e, transcription env io base64_audio = Raise e →
     snd (webhook_handler env data io st)
     = Raise (rejection env (HTTPException 422 ("Error processing audio: " +:+ str_exn env e))))
  ∧ (∀ text e, transcription env io base64_audio = Ok text →
       parse_message env data (PStr text) = Raise e →
       snd (webhook_handler env data io st) = Raise (rejection env e)
       ∧ effects st' = (effects st ++ [Transcribe (tmp_name io) (LANG env)])%list
       ∧ message_buffers st' = message_buffers st
       ∧ processing_tasks st' = processing_tasks st
       ∧ tasks st' = tasks st).
Proof.
  intros Hc Hptt base64_audio st'. subst st'. split.
  - intros e He.
    erewrite webhook_handler_rejected; [done..|].
    unfold ingress, message_text. rewrite Hptt. fold base64_audio. by rewrite He.
  - intros text e Ht He.
    assert (ingress env data io = Raise e) as Hi.
    { unfold ingress, message_text. rewrite Hptt. fold base64_audio. by rewrite Ht. }
    rewrite (webhook_handler_rejected env data io st e Hc Hi). simpl.
    split; [done|].
    unfold after_audio. rewrite Hc, Hptt. simpl. fold base64_audio.
    split; [by eapply transcribe_effect|].
    destruct (transcribe_frame env io base64_audio st) as (? & ? & ? & _). done.
Qed.

(** C7. On the three ways out of [transcribe_base64_audio] that the
    specification names (success, transcription failure, decode failure) no
    temporary file is left: after a decode failure the files are as before,
    none having been created, and otherwise the file that was created is
    gone. *)
Theorem temporary_file_released io base64_audio st :
  exit_path_of env io base64_audio ≠ ExitWriteFailure →
  let st' := fst (transcribe_base64_audio env io base64_audio st) in
  files st' ⊆ files st
  ∧ (tmp_name io ∉ files st → files st' = files st)
  ∧ (exit_path_of env io base64_audio ≠ ExitDecodeFailure → tmp_name io ∉ files st').
Proof.
  unfold exit_path_of, transcribe_base64_audio, transcribe_try.
  destruct (b64decode env base64_audio); [|simpl; set_solver].
  destruct (write_ok io); [|done].
  intros _. destruct (close_ok io), (GROQ_CLIENT_bound env);
    simpl; case_decide; simpl; set_solver.
Qed.

(** When [tmp_file.write] itself fails, [tmp_file_path] is not yet bound
    and the [finally] block cannot delete the file.  (A failure of the
    flush at the end of the [with] block comes after the assignment, and
    the file is deleted.) *)
Lemma temporary_file_left_on_write_failure io base64_audio st :
  exit_path_of env io base64_audio = ExitWriteFailure →
  tmp_name io ∈ files (fst (transcribe_base64_audio env io base64_audio st)).
Proof.
  unfold exit_path_of, transcribe_base64_audio, transcribe_try.
  destruct (b64decode env base64_audio); [|done].
  destruct (write_ok io);
    [by destruct (close_ok io), (GROQ_CLIENT_bound env), (whisper io)|].
  intros _. simpl. set_solver.
Qed.

End IngressProperties.

(** ** The aggregation task, segment by segment *)

Section TaskProperties.
Context (env : Env).

Lemma lookup_set_task_st tid ts st tid' :
  tasks (set_task_st tid ts st) !! tid'
  = if decide (tid = tid') then with_st ts <$> tasks st !! tid else tasks st !! tid'.
Proof.
  unfold set_task_st. simpl. apply list_lookup_alter.
Qed.

Lemma length_set_task_st tid ts st :
  List.length (tasks (set_task_st tid ts st)) = List.length (tasks st).
Proof. unfold set_task_st. simpl. apply length_alter. Qed.

Lemma buffer_set_buffer s l st : buffer (set_buffer s l st) s = l.
Proof. unfold buffer, set_buffer. simpl. by rewrite lookup_insert_eq. Qed.

Lemma buffer_set_buffer_ne s s' l st : s ≠ s' → buffer (set_buffer s l st) s' = buffer st s'.
Proof. intros. unfold buffer, set_buffer. simpl. by rewrite lookup_insert_ne. Qed.

Lemma buffer_touch_buffer s s' st : buffer (touch_buffer s st) s' = buffer st s'.
Proof.
  unfold buffer, touch_buffer. simpl.
  destruct (decide (s = s')) as [->|]; [by rewrite lookup_insert_eq|by rewrite lookup_insert_ne].
Qed.

(** What each kind of step does, as an equation on the state *)
Lemma step_Webhook now data io st st' r :
  step env now (Webhook data io) st = Some (st', r) →
  (clock st ≤ now)%Z
  ∧ st' = fst (webhook_handler env data io (set_clock now st))
  ∧ r = Some (snd (webhook_handler env data io (set_clock now st))).
Proof.
  unfold step. case_decide; [|done].
  destruct (webhook_handler env data io (set_clock now st)). by intros [= <- <-].
Qed.

Lemma step_TaskStart now tid st st' r :
  step env now (TaskStart tid) st = Some (st', r) →
  ∃ t, tasks st !! tid = Some t ∧ task_st t = Created ∧ (clock st ≤ now)%Z
       ∧ st' = task_start env tid t (set_clock now st) ∧ r = None.
Proof.
  unfold step. case_decide; [|done]. simpl.
  destruct (tasks st !! tid) as [t|]; [|done].
  destruct (task_st t) eqn:E; try done. intros [= <- <-]. eauto 10.
Qed.

Lemma step_TaskWake now tid st st' r :
  step env now (TaskWake tid) st = Some (st', r) →
  ∃ t deadline, tasks st !! tid = Some t ∧ task_st t = Sleeping deadline
       ∧ (clock st ≤ now)%Z ∧ (deadline ≤ now)%Z
       ∧ st' = task_wake tid t (set_clock now st) ∧ r = None.
Proof.
  unfold step. case_decide; [|done]. simpl.
  destruct (tasks st !! tid) as [t|]; [|done].
  destruct (task_st t) eqn:E; try done. case_decide; [|done].
  intros [= <- <-]. eauto 10.
Qed.

Lemma step_AgentDone now tid res st st' r :
  step env now (AgentDone tid res) st = Some (st', r) →
  ∃ t phone_number combined_message,
    tasks st !! tid = Some t ∧ task_st t = InAgent phone_number combined_message
    ∧ (clock st ≤ now)%Z
    ∧ st' = task_agent_done tid t combined_message res (set_clock now st) ∧ r = None.
Proof.
  unfold step. case_decide; [|done]. simpl.
  destruct (tasks st !! tid) as [t|]; [|done].
  destruct (task_st t) eqn:E; try done. intros [= <- <-]. eauto 10.
Qed.

(** A message buffered for a sender with an empty buffer and no handle
    opens a window of its own: a new task is created and registered, and
    the buffer holds that message only. *)
Lemma fresh_window now data io m st :
  normalize env data io = Some m →
  buffer st (id (sender m)) = [] →
  processing_tasks st !! id (sender m) = None →
  (clock st ≤ now)%Z →
  ∃ st', step env now (Webhook data io) st = Some (st', Some (Ok (aggregating false)))
    ∧ buffer st' (id (sender m)) = [body m]
    ∧ processing_tasks st' !! id (sender m) = Some (List.length (tasks st))
    ∧ tasks st' = (tasks st ++ [new_task m])%list.
Proof.
  intros Hn Hb Hp Hc. unfold step. rewrite decide_True by done.
  rewrite (webhook_handler_accepted env data io _ m Hn). simpl.
  rewrite Hp. simpl. eexists. split; [reflexivity|].
  destruct (after_audio_frame env data io (set_clock now st)) as (Hb' & Hp' & Ht' & _).
  simpl in Hb', Hp', Ht'.
  unfold enqueue. simpl. rewrite Hp', Hp. simpl.
  rewrite lookup_insert_eq, Ht'. split; [|done].
  unfold buffer in *. simpl. rewrite lookup_insert_eq, Hb', Hb. done.
Qed.

Lemma on_exception_idle tid s e st :
  buffer (on_exception tid s e st) s = []
  ∧ processing_tasks (on_exception tid s e st) !! s = None.
Proof.
  unfold on_exception, buffer. simpl. by rewrite lookup_insert_eq, lookup_delete_eq.
Qed.

(** C4. When the agent call of a dispatch raises, no HTTP outcome comes of
    it (the exception ends the task, which no request awaits), the
    sender's buffer is empty and its handle gone, and the next message of
    that sender is acknowledged normally and opens a window of its own,
    whose buffer holds that message only. *)
Theorem failure_recovery now tid e t st st' r :
  step env now (AgentDone tid (Raise e)) st = Some (st', r) →
  tasks st !! tid = Some t →
  let sender_id := task_sender_id t in
  r = None
  ∧ task_st <$> tasks st' !! tid = Some (Failed e)
  ∧ buffer st' sender_id = []
  ∧ processing_tasks st' !! sender_id = None
  ∧ (∀ now' data io m,
       normalize env data io = Some m → id (sender m) = sender_id → (now ≤ now')%Z →
       ∃ st'', step env now' (Webhook data io) st' = Some (st'', Some (Ok (aggregating false)))
         ∧ buffer st'' sender_id = [body m]
         ∧ processing_tasks st'' !! sender_id = Some (List.length (tasks st'))
         ∧ tasks st'' !! List.length (tasks st') = Some (new_task m)).
Proof.
  intros Hs Ht sender_id.
  apply step_AgentDone in Hs as (t' & p & c & Ht' & Hst & Hc & -> & ->).
  rewrite Ht in Ht'. injection Ht' as <-.
  unfold task_agent_done. fold sender_id.
  destruct (on_exception_idle tid sender_id e (set_clock now st)) as [Hb Hp].
  split; [done|]. split.
  { unfold on_exception. rewrite lookup_set_task_st, decide_True by done. simpl. by rewrite Ht. }
  split; [done|]. split; [done|].
  intros now' data io m Hn Hid Hle.
  destruct (fresh_window now' data io m (on_exception tid sender_id e (set_clock now st)))
    as (st'' & Hstep & Hb'' & Hp'' & Ht''); try (rewrite ?Hid; done).
  exists st''. rewrite Hid in *. repeat split; try done.
  rewrite Ht''. by rewrite lookup_app_r, Nat.sub_diag.
Qed.

(** C10. When a window closes on a non-empty buffer, the step that
    snapshots the buffer also empties it, removes the handle and only then
    calls the agent: the task is left waiting for the agent while its
    sender has an empty buffer and no handle.  A message of that sender
    arriving then opens a new window at once, with a task of its own, while
    the first task is still waiting for the agent. *)
Theorem idle_during_agent_call now tid t st st' r :
  step env now (TaskWake tid) st = Some (st', r) →
  tasks st !! tid = Some t →
  let sender_id := task_sender_id t in
  buffer st sender_id ≠ [] →
  let waiting := InAgent (before_at sender_id) (join " " (buffer st sender_id)) in
  buffer st' sender_id = []
  ∧ processing_tasks st' !! sender_id = None
  ∧ effects st'
    = (effects st ++ [CallAgent sender_id (before_at sender_id)
                        (join " " (buffer st sender_id))])%list
  ∧ task_st <$> tasks st' !! tid = Some waiting
  ∧ (∀ now' data io m,
       normalize env data io = Some m → id (sender m) = sender_id → (now ≤ now')%Z →
       ∃ st'', step env now' (Webhook data io) st' = Some (st'', Some (Ok (aggregating false)))
         ∧ buffer st'' sender_id = [body m]
         ∧ processing_tasks st'' !! sender_id = Some (List.length (tasks st'))
         ∧ tasks st'' !! List.length (tasks st') = Some (new_task m)
         ∧ List.length (tasks st') ≠ tid
         ∧ task_st <$> tasks st'' !! tid = Some waiting).
Proof.
  intros Hs Ht sender_id Hne waiting.
  apply step_TaskWake in Hs as (t' & d & Ht' & Hst & Hc & Hd & -> & ->).
  rewrite Ht in Ht'. injection Ht' as <-.
  unfold task_wake. fold sender_id.
  replace (buffer (set_clock now st) sender_id) with (buffer st sender_id) by done.
  destruct (buffer st sender_id) as [|x l] eqn:Hb; [done|].
  set (st1 := set_task_st _ _ _).
  assert (buffer st1 sender_id = []) as Hb1.
  { subst st1. unfold buffer. simpl. by rewrite lookup_insert_eq. }
  assert (processing_tasks st1 !! sender_id = None) as Hp1.
  { subst st1. simpl. by rewrite lookup_delete_eq. }
  assert (task_st <$> tasks st1 !! tid = Some waiting) as Ht1.
  { subst st1. rewrite lookup_set_task_st, decide_True by done. simpl. by rewrite Ht. }
  split; [done|]. split; [done|]. split; [done|]. split; [done|].
  intros now' data io m Hn Hid Hle.
  destruct (fresh_window now' data io m st1) as (st'' & Hstep & Hb'' & Hp'' & Ht'');
    try (rewrite ?Hid; done).
  exists st''. rewrite Hid in *.
  assert (tid < List.length (tasks st1)) as Hlt.
  { destruct (tasks st1 !! tid) eqn:E; [|done]. by eapply lookup_lt_Some. }
  repeat split; try done.
  - rewrite Ht''. by rewrite lookup_app_r, Nat.sub_diag.
  - lia.
  - rewrite Ht''. by rewrite lookup_app_l.
Qed.

End TaskProperties.

(** ** Window closure and the reachable states *)

Section Closure.
Context (env : Env).

Lemma on_exception_buffer tid s e st s' :
  buffer (on_exception tid s e st) s' = if decide (s' = s) then [] else buffer st s'.
Proof.
  unfold on_exception, buffer. simpl. case_decide as Hd.
  - subst. by rewrite lookup_insert_eq.
  - by rewrite lookup_insert_ne.
Qed.

Lemma on_exception_handle tid s e st s' :
  processing_tasks (on_exception tid s e st) !! s'
  = if decide (s' = s) then None else processing_tasks st !! s'.
Proof.
  unfold on_exception. simpl. case_decide as Hd.
  - subst. by rewrite lookup_delete_eq.
  - by rewrite lookup_delete_ne.
Qed.

Lemma task_wake_buffer tid t st s' :
  buffer (task_wake tid t st) s' = if decide (s' = task_sender_id t) then [] else buffer st s'.
Proof.
  unfold task_wake. destruct (buffer st (task_sender_id t)) eqn:Hb.
  - replace (buffer (set_task_st _ _ _) s') with (buffer (touch_buffer (task_sender_id t) st) s')
      by done.
    rewrite buffer_touch_buffer. case_decide; by subst.
  - unfold buffer. simpl. case_decide as Hd.
    + subst. by rewrite lookup_insert_eq.
    + rewrite lookup_insert_ne by done. by rewrite lookup_insert_ne.
Qed.

Lemma task_wake_handle tid t st s' :
  processing_tasks (task_wake tid t st) !! s'
  = if decide (s' = task_sender_id t)
    then match buffer st s' with [] => processing_tasks st !! s' | _ => None end
    else processing_tasks st !! s'.
Proof.
  unfold task_wake. case_decide as Hd.
  - subst. destruct (buffer st (task_sender_id t)); [done|]. simpl. by rewrite lookup_delete_eq.
  - destruct (buffer st (task_sender_id t)); [done|]. simpl. by rewrite lookup_delete_ne.
Qed.

Lemma enqueue_buffer m st s' :
  buffer (enqueue m st) s'
  = if decide (s' = id (sender m)) then (buffer st s' ++ [body m])%list else buffer st s'.
Proof.
  assert (buffer (enqueue m st) s' = buffer (append_buffer (id (sender m)) (body m) st) s') as ->.
  { unfold enqueue. by destruct (processing_tasks _ !! _). }
  case_decide as Hd.
  - subst. apply buffer_append_buffer.
  - by apply buffer_append_buffer_ne.
Qed.

Lemma enqueue_handle m st s' :
  processing_tasks (enqueue m st) !! s'
  = if decide (s' = id (sender m))
    then Some (default (List.length (tasks st)) (processing_tasks st !! s'))
    else processing_tasks st !! s'.
Proof.
  unfold enqueue. simpl. case_decide as Hd.
  - subst. destruct (processing_tasks st !! id (sender m)) eqn:E; simpl.
    + done.
    + by rewrite lookup_insert_eq.
  - destruct (processing_tasks st !! id (sender m)) eqn:E; simpl; [done|].
    by rewrite lookup_insert_ne.
Qed.

Lemma enqueue_tasks m st :
  tasks (enqueue m st)
  = match processing_tasks st !! id (sender m) with
    | Some _ => tasks st
    | None => (tasks st ++ [new_task m])%list
    end.
Proof. unfold enqueue. simpl. by destruct (processing_tasks st !! id (sender m)). Qed.

Lemma step_preserves_invariant now ev st st' r :
  handle_has_messages st →
  step env now ev st = Some (st', r) →
  handle_has_messages st'.
Proof.
  intros Hinv Hstep s Hs. destruct ev as [data io|tid|tid|tid res].
  - apply step_Webhook in Hstep as (_ & -> & _).
    destruct (normalize env data io) as [m|] eqn:Hn.
    + rewrite (webhook_handler_accepted env data io _ m Hn) in *. simpl in *.
      rewrite enqueue_buffer. rewrite enqueue_handle in Hs.
      rewrite after_audio_buffer.
      destruct (after_audio_frame env data io (set_clock now st)) as (_ & Hp & _).
      case_decide.
      * by destruct (buffer (set_clock now st) s).
      * rewrite Hp in Hs. by apply Hinv.
    + destruct (webhook_handler_not_buffered env data io (set_clock now st) Hn)
        as (Hb & Hp & _).
      unfold buffer. rewrite Hb. rewrite Hp in Hs. by apply Hinv.
  - apply step_TaskStart in Hstep as (t & _ & _ & _ & -> & _).
    unfold task_start in *. destruct (int_WAIT_TIME env).
    + by apply Hinv.
    + rewrite on_exception_handle in Hs. rewrite on_exception_buffer.
      case_decide; [by destruct Hs|]. by apply Hinv.
  - apply step_TaskWake in Hstep as (t & d & _ & _ & _ & _ & -> & _).
    rewrite task_wake_handle in Hs. rewrite task_wake_buffer.
    case_decide as Hd; [|by apply Hinv].
    subst. replace (buffer (set_clock now st) (task_sender_id t))
      with (buffer st (task_sender_id t)) in Hs by done.
    destruct (buffer st (task_sender_id t)) eqn:Hb; [|by destruct Hs].
    by apply Hinv in Hs.
  - apply step_AgentDone in Hstep as (t & p & c & _ & _ & _ & -> & _).
    unfold task_agent_done in *. destruct res.
    + by apply Hinv.
    + rewrite on_exception_handle in Hs. rewrite on_exception_buffer.
      case_decide; [by destruct Hs|]. by apply Hinv.
Qed.

Lemma run_preserves_invariant trace st st' :
  handle_has_messages st → run env trace st = Some st' → handle_has_messages st'.
Proof.
  revert st. induction trace as [|[now ev] trace IH]; intros st Hinv Hrun; simpl in Hrun.
  - by injection Hrun as <-.
  - destruct (step env now ev st) as [[st1 r]|] eqn:Hs; [|done].
    eapply IH; [|done]. by eapply step_preserves_invariant.
Qed.

Lemma reachable_invariant st : reachable env st → handle_has_messages st.
Proof.
  intros [trace Hrun]. eapply run_preserves_invariant; [|done].
  intros s [x Hx]. done.
Qed.

(** The normal end of a dispatch touches neither map: whatever handle the
    sender has then is kept. *)
Lemma normal_completion_keeps_maps now tid a st st' r :
  step env now (AgentDone tid (Ok a)) st = Some (st', r) →
  message_buffers st' = message_buffers st ∧ processing_tasks st' = processing_tasks st.
Proof. intros Hs. by apply step_AgentDone in Hs as (t & p & c & _ & _ & _ & -> & _). Qed.

(** C3, amended.  In a reachable state, the step at which a window's
    deadline has elapsed leaves its sender with an empty buffer and no
    handle.  On a non-empty buffer that one step snapshots and empties the
    buffer, removes the handle and calls the agent on the snapshot joined
    with spaces, which leaves the task waiting for the agent: the handle is
    gone before the dispatch completes.  On an empty buffer no agent call
    is made and the task returns.  When the dispatch later completes, a
    normal return changes neither map, and an exception empties the buffer
    and removes whatever handle the sender has. *)
Theorem window_closure now tid t st st' r :
  reachable env st →
  step env now (TaskWake tid) st = Some (st', r) →
  tasks st !! tid = Some t →
  let sender_id := task_sender_id t in
  let snapshot := buffer st sender_id in
  buffer st' sender_id = []
  ∧ processing_tasks st' !! sender_id = None
  ∧ (snapshot = [] →
       effects st' = effects st ∧ task_st <$> tasks st' !! tid = Some (Returned None))
  ∧ (snapshot ≠ [] →
       effects st'
       = (effects st ++ [CallAgent sender_id (before_at sender_id) (join " " snapshot)])%list
       ∧ task_st <$> tasks st' !! tid
         = Some (InAgent (before_at sender_id) (join " " snapshot)))
  ∧ (∀ now' res st1 st2 r',
       step env now' (AgentDone tid res) st1 = Some (st2, r') →
       task_sender_id <$> tasks st1 !! tid = Some sender_id →
       match res with
       | Ok _ => message_buffers st2 = message_buffers st1
                 ∧ processing_tasks st2 = processing_tasks st1
       | Raise _ => buffer st2 sender_id = [] ∧ processing_tasks st2 !! sender_id = None
       end).
Proof.
  intros Hreach Hs Ht sender_id snapshot.
  apply reachable_invariant in Hreach.
  apply step_TaskWake in Hs as (t' & d & Ht' & Hst & Hc & Hd & -> & ->).
  rewrite Ht in Ht'. injection Ht' as <-.
  assert (buffer (set_clock now st) sender_id = snapshot) as Hsnap by done.
  assert (buffer st sender_id = snapshot) as Hsnap' by done.
  clearbody snapshot.
  split; [by rewrite task_wake_buffer, decide_True|].
  split.
  { rewrite task_wake_handle, decide_True by done. fold sender_id. rewrite Hsnap.
    destruct snapshot; [|done].
    destruct (processing_tasks (set_clock now st) !! sender_id) eqn:E; [|done].
    exfalso. eapply (Hreach sender_id); [|done]. by eexists. }
  split.
  { intros ->. unfold task_wake. fold sender_id. rewrite Hsnap.
    split; [done|]. rewrite lookup_set_task_st, decide_True by done. simpl. by rewrite Ht. }
  split.
  { intros Hb. unfold task_wake. fold sender_id. rewrite Hsnap.
    destruct snapshot; [done|].
    split; [done|]. rewrite lookup_set_task_st, decide_True by done. simpl. by rewrite Ht. }
  intros now' res st1 st2 r' Hs' Hsame.
  destruct res as [a|e].
  - by eapply normal_completion_keeps_maps.
  - apply step_AgentDone in Hs' as (t1 & p & c & Ht1 & _ & _ & -> & _).
    assert (task_sender_id t1 = sender_id) as Hid.
    { rewrite Ht1 in Hsame. by injection Hsame. }
    unfold task_agent_done. rewrite Hid. apply on_exception_idle.
Qed.

End Closure.

(** ** Coalescing of a burst *)

Section Coalescing.
Context (env : Env) (W : Z) (HW : int_WAIT_TIME env = Ok W) (s : string).

Lemma dispatches_app l1 l2 :
  dispatches s (l1 ++ l2)%list = (dispatches s l1 ++ dispatches s l2)%list.
Proof.
  induction l1 as [|[p l|s' p text] l1 IH]; simpl; [done|done|].
  destruct (String.eqb s' s); simpl; by rewrite IH.
Qed.

Lemma after_audio_dispatches data io st :
  dispatches s (effects (after_audio env data io st)) = dispatches s (effects st).
Proof.
  destruct (after_audio_frame env data io st) as (_ & _ & _ & _ & [-> | ->]); [done|].
  rewrite dispatches_app. simpl. by rewrite app_nil_r.
Qed.






End Coalescing.

Section TaskView.
Context (env : Env) (s : string).



End TaskView.


Section Burst.
Context (env : Env) (W : Z) (HW : int_WAIT_TIME env = Ok W) (s : string).















(** *** The waiting task of a sender is its handle *)




End Burst.

Section Handle.
Context (env : Env) (s : string).





End Handle.



(** ** process_chunks *)

(** C8, amended.  When the first node of a chunk carries an [AIMessage]
    whose content is a string and which has no tool call, and the console
    prints that answer, [process_chunks] offers the agent's answer (not the
    text sent to the agent) to the synthesiser with language ["pt-br"];
    and when building the synthesiser and saving the audio succeed, it
    saves the audio to a temporary file and sends that file to the phone
    number it was called with, these four outputs being all it does. *)
Theorem direct_answer_is_spoken env io node d rest answer tool_calls phone_number :
  dict_lookup d "messages" = Some (PAIMessage (PStr answer) tool_calls) →
  no_tool_call tool_calls = true →
  rich_print io (nl +:+ "Agent:" +:+ nl +:+ answer) "black on white" = Ok tt →
  (GTTS answer "pt-br")
    ∈ fst (process_chunks env io (PDict ((node, PDict d) :: rest)) phone_number)
  ∧ (gTTS_new io = Ok tt → gTTS_save io = Ok tt →
     process_chunks env io (PDict ((node, PDict d) :: rest)) phone_number
     = ([Print (nl +:+ "Agent:" +:+ nl +:+ answer) "black on white";
         GTTS answer "pt-br";
         Save (audio_tmp_name io);
         SendVoice (audio_tmp_name io) phone_number],
        send_voice io)).
Proof.
  intros Hd Hno Hprint. unfold process_chunks, subscript, dict_getitem. simpl.
  rewrite Hd. simpl.
  assert (answer_str env io answer tool_calls phone_number
          = answer_str env io answer None phone_number) as ->
    by (by destruct tool_calls as [[|]|]).
  unfold answer_str, print. rewrite Hprint. split.
  - destruct (gTTS_new io); [destruct (gTTS_save io)|]; simpl; set_solver.
  - by intros -> ->.
Qed.

(** ** The model at work *)

(** Scenario A of the specification, with a second sender in between *)
Example scenario_A_dispatches :
  effects (Sample.after Sample.scenario_A)
  = [CallAgent "5511999@c.us" "5511999" "Oi tudo bem?";
     CallAgent "5522888@c.us" "5522888" "Bom dia"].
Proof. vm_compute. reflexivity. Qed.

(** Scenario B: a voice note is buffered as its transcription. *)
Example scenario_B :
  buffer (fst (webhook_handler Sample.env (Sample.ptt Sample.alice "b2xh")
                 (Sample.audio "ola") init)) Sample.alice
  = ["ola"].
Proof. vm_compute. reflexivity. Qed.

(** Scenario C: an image is acknowledged and not buffered. *)
Example scenario_C :
  webhook_handler Sample.env (Sample.payload "image" Sample.alice "") (Sample.audio "") init
  = (init, Ok received).
Proof. vm_compute. reflexivity. Qed.

(** C5. A payload that passes the filter but lacks ["session"] fails to
    parse; the handler answers HTTP 500, not 422, and buffers nothing. *)
Example missing_session_answers_500 :
  webhook_handler Sample.env Sample.no_session (Sample.audio "") init
  = (init,
     Raise (HTTPException 500
              "Error processing webhook: 422: Error parsing message: 'session'")).
Proof. vm_compute. reflexivity. Qed.

(** The error transition of a dispatch acts on whatever the sender has at
    that moment: here the first dispatch fails while a second window is
    open, which empties that window's buffer and removes its handle, so
    that the second window closes on nothing. *)
Example failed_dispatch_empties_open_window :
  dispatches Sample.alice
    (effects (Sample.after
       [(0, Sample.chat Sample.alice "a"); (0, TaskStart 0); (1000, TaskWake 0);
        (2000, Sample.chat Sample.alice "b"); (2000, TaskStart 1);
        (2300, Sample.chat Sample.alice "c");
        (2500, AgentDone 0 (Raise (CollaboratorError "timeout")));
        (3000, TaskWake 1)]%Z))
  = ["a"].
Proof. vm_compute. reflexivity. Qed.

(** A voice note that is not valid base64 is answered HTTP 500 as well. *)
Example bad_audio_answers_500 :
  ∃ detail,
    webhook_handler Sample.env (Sample.ptt Sample.alice "b") (Sample.audio "ola") init
    = (init, Raise (HTTPException 500 detail)).
Proof. eexists. vm_compute. reflexivity. Qed.

(** With [GROQ_CLIENT] unbound, a voice note whose audio decodes and is
    written is answered HTTP 500 too: no transcription call is made,
    nothing is buffered and the temporary file is removed. *)
Example voice_note_as_shipped_answers_500 :
  ∃ detail,
    webhook_handler Sample.env_shipped (Sample.ptt Sample.alice "b2xh") (Sample.audio "ola")
      init
    = (init, Raise (HTTPException 500 detail)).
Proof. eexists. vm_compute. reflexivity. Qed.

(** ** The theorems at concrete inputs *)





(** Scenario C: an image is filtered out. *)
Lemma filter_correctness_witness :
  webhook_handler Sample.env (Sample.payload "image" Sample.alice "") (Sample.audio "") init
  = (init, Ok received).
Proof.
  apply filter_correctness. right. right. reflexivity.
Defined.

(** A voice note whose transcription fails leaves no file behind. *)
Lemma temporary_file_released_witness :
  files (fst (transcribe_base64_audio Sample.env
                {| tmp_name := "/tmp/a.ogg"; write_ok := true; close_ok := true;
                   whisper := Raise (CollaboratorError "503") |}
                (PStr "b2xh") init)) ⊆ files init.
Proof.
  apply (temporary_file_released Sample.env
           {| tmp_name := "/tmp/a.ogg"; write_ok := true; close_ok := true;
              whisper := Raise (CollaboratorError "503") |} (PStr "b2xh") init).
  vm_compute. discriminate.
Defined.

(** A voice note without ["session"]: transcribed, then rejected. *)
Lemma transcription_precedes_validation_witness :
  effects (fst (webhook_handler Sample.env
                  (("type", PStr "ptt") :: ("body", PStr "b2xh") :: Sample.no_session)
                  (Sample.audio "ola") init))
  = (effects init ++ [Transcribe "/tmp/a.ogg" (Some "pt")])%list.
Proof.
  apply (transcription_precedes_validation Sample.env
           (("type", PStr "ptt") :: ("body", PStr "b2xh") :: Sample.no_session)
           (Sample.audio "ola") init eq_refl eq_refl) with (text := "ola") (e := KeyError "session").
  - reflexivity.
  - reflexivity.
Defined.

(** The agent fails on the burst of scenario A. *)
Lemma failure_recovery_witness :
  buffer (Sample.after (Sample.burst ++ [(1000, TaskWake 0);
                                         (2500, AgentDone 0 (Raise (CollaboratorError "timeout")))]%Z))
    Sample.alice = [].
Proof.
  apply (failure_recovery Sample.env 2500 0 (CollaboratorError "timeout")
           {| task_sender_id := Sample.alice; task_session := "s1"; task_is_user := true;
              task_is_group := false; task_st := InAgent "5511999" "Oi tudo bem?" |}
           (Sample.after (Sample.burst ++ [(1000, TaskWake 0)]%Z))
           (Sample.after (Sample.burst ++ [(1000, TaskWake 0);
                            (2500, AgentDone 0 (Raise (CollaboratorError "timeout")))]%Z))
           None).
  - vm_compute. reflexivity.
  - vm_compute. reflexivity.
Defined.

(** The window of scenario A closes: its sender is idle while the agent
    works. *)
Lemma idle_during_agent_call_witness :
  processing_tasks (Sample.after (Sample.burst ++ [(1000, TaskWake 0)]%Z)) !! Sample.alice
  = None.
Proof.
  apply (idle_during_agent_call Sample.env 1000 0
           {| task_sender_id := Sample.alice; task_session := "s1"; task_is_user := true;
              task_is_group := false; task_st := Sleeping 1000 |}
           (Sample.after Sample.burst)
           (Sample.after (Sample.burst ++ [(1000, TaskWake 0)]%Z)) None).
  - vm_compute. reflexivity.
  - vm_compute. reflexivity.
  - vm_compute. discriminate.
Defined.

(** The window of scenario A closes in a reachable state. *)
Lemma window_closure_witness :
  buffer (Sample.after (Sample.burst ++ [(1000, TaskWake 0)]%Z)) Sample.alice = [].
Proof.
  apply (window_closure Sample.env 1000 0
           {| task_sender_id := Sample.alice; task_session := "s1"; task_is_user := true;
              task_is_group := false; task_st := Sleeping 1000 |}
           (Sample.after Sample.burst)
           (Sample.after (Sample.burst ++ [(1000, TaskWake 0)]%Z)) None).
  - exists Sample.burst. vm_compute. reflexivity.
  - vm_compute. reflexivity.
  - vm_compute. reflexivity.
Defined.

(** A direct answer is spoken and sent. *)
Lemma direct_answer_is_spoken_witness :
  (GTTS "Ola! Como posso ajudar?" "pt-br")
    ∈ fst (process_chunks Sample.env Sample.voice
             (direct_answer_chunk "agent" "Ola! Como posso ajudar?") "5511999").
Proof.
  apply (direct_answer_is_spoken Sample.env Sample.voice "agent"
           [("messages", PAIMessage (PStr "Ola! Como posso ajudar?") (Some []))] []
           "Ola! Como posso ajudar?" (Some []) "5511999"); reflexivity.
Defined.

(** ** Where the specification and the code part *)

(** C3, as the specification words it, fails: after the window of
    scenario A has closed, its task waits for the agent and the sender has
    no handle any more. *)
Lemma handle_removed_before_completion :
  ¬ handle_kept_until_completion Sample.env.
Proof.
  intros H.
  specialize (H (Sample.after (Sample.burst ++ [(1000, TaskWake 0)]%Z)) 0
                {| task_sender_id := Sample.alice; task_session := "s1"; task_is_user := true;
                   task_is_group := false; task_st := InAgent "5511999" "Oi tudo bem?" |}
                "5511999" "Oi tudo bem?").
  assert (processing_tasks (Sample.after (Sample.burst ++ [(1000, TaskWake 0)]%Z))
            !! Sample.alice = Some 0) as Hsome.
  { apply H; [|vm_compute; reflexivity|reflexivity].
    exists (Sample.burst ++ [(1000, TaskWake 0)]%Z)%list. vm_compute. reflexivity. }
  vm_compute in Hsome. discriminate.
Qed.

(** C8, as the specification words it, fails: for the dispatch of
    ["Oi tudo bem?"] answered ["Ola! Como posso ajudar?"], the text given to
    the synthesiser is the answer, and the combined text is not. *)
Lemma combined_text_is_not_spoken :
  ((GTTS "Oi tudo bem?" "pt-br")
     ∉ fst (process_chunks Sample.env Sample.voice
              (direct_answer_chunk "agent" "Ola! Como posso ajudar?") "5511999"))
  ∧ ((GTTS "Ola! Como posso ajudar?" "pt-br")
       ∈ fst (process_chunks Sample.env Sample.voice
                (direct_answer_chunk "agent" "Ola! Como posso ajudar?") "5511999")).
Proof.
  vm_compute. split.
  - intros H. repeat (apply elem_of_cons in H as [H|H]; [discriminate|]).
    by apply elem_of_nil in H.
  - set_solver.
Qed.

(** * Further properties of the code *)

(** ** The handler's answers *)

Section Answers.
Context (env : Env).

(** X1. A call of [webhook_handler] ends in one of three ways.  It buffers
    the message at the end of its sender's buffer and answers
    ["aggregating"], with the text that tells whether the sender had a
    window; or the payload fails the filter and the answer is
    ["received"]; or the payload passes the filter and fails later, and an
    [HTTPException] with status 500 is raised.  In the last two cases both
    maps and the tasks are as before. *)
Theorem handler_outcomes data io st :
  match normalize env data io with
  | Some m =>
      snd (webhook_handler env data io st)
      = Ok (aggregating (bool_decide (is_Some (processing_tasks st !! id (sender m)))))
      ∧ buffer (fst (webhook_handler env data io st)) (id (sender m))
        = (buffer st (id (sender m)) ++ [body m])%list
  | None =>
      (if matches_criteria data
       then ∃ detail, snd (webhook_handler env data io st) = Raise (HTTPException 500 detail)
       else snd (webhook_handler env data io st) = Ok received)
      ∧ message_buffers (fst (webhook_handler env data io st)) = message_buffers st
      ∧ processing_tasks (fst (webhook_handler env data io st)) = processing_tasks st
      ∧ tasks (fst (webhook_handler env data io st)) = tasks st
  end.
Proof.
  destruct (normalize env data io) as [m|] eqn:Hn.
  - rewrite (webhook_handler_accepted env data io st m Hn). simpl. split; [done|].
    rewrite enqueue_buffer, decide_True by done. by rewrite after_audio_buffer.
  - split; [|by apply webhook_handler_not_buffered].
    destruct (matches_criteria data) eqn:Hc.
    + unfold normalize in Hn. rewrite Hc in Hn.
      destruct (ingress env data io) as [|e] eqn:Hi; [done|].
      rewrite (webhook_handler_rejected env data io st e Hc Hi). simpl.
      unfold rejection. eauto.
    + by rewrite webhook_handler_skipped.
Qed.

(** What [parse_message] makes of the text it is given and of the sender
    id of the payload *)
Lemma parse_message_fields data text m :
  parse_message env data text = Ok m →
  validate_str env text = Some (body m)
  ∧ (∃ v, dict_lookup data "event" = Some v ∧ validate_str env v = Some (event m))
  ∧ (∃ v, dict_lookup data "type" = Some v ∧ validate_str env v = Some (type m))
  ∧ (∃ d v, dict_lookup data "sender" = Some (PDict d) ∧ dict_lookup d "id" = Some v
            ∧ validate_str env v = Some (id (sender m))).
Proof.
  unfold parse_message, result_bind, dict_getitem, subscript, mk_Sender, mk_WebhookMessage.
  intros H. repeat case_match; simplify_eq; simpl.
  match goal with
  | Hid : dict_getitem _ "id" = Ok _ |- _ =>
      unfold dict_getitem in Hid; case_match; simplify_eq
  end.
  split; [done|]. split; [eauto|]. split; [eauto|]. eauto 10.
Qed.

(** X2. A voice note that is buffered is buffered as what the
    transcription service returned for it, whatever its body held. *)
Theorem voice_note_buffered_as_transcription data io m :
  normalize env data io = Some m →
  eq_str (dict_get data "type") "ptt" = true →
  whisper io = Ok (body m).
Proof.
  unfold normalize, ingress, message_text, transcription. intros Hn Hptt.
  rewrite Hptt in Hn. destruct (matches_criteria data); [|done].
  destruct (b64decode env _); [|done].
  destruct (write_ok io); [|done].
  destruct (close_ok io); [|done].
  destruct (GROQ_CLIENT_bound env); [|done].
  destruct (whisper io) as [text|]; [|done]. simpl in Hn.
  destruct (parse_message env data (PStr text)) as [m'|] eqn:Hp; [|done].
  injection Hn as ->. apply parse_message_fields in Hp as (Hb & _).
  rewrite validate_str_PStr in Hb. by injection Hb as ->.
Qed.

(** X3. A message of another allowed type is buffered with its body as it
    is, and with the empty string when the payload has no ["body"]. *)
Theorem text_buffered_verbatim data io m :
  normalize env data io = Some m →
  eq_str (dict_get data "type") "ptt" = false →
  (∀ b, dict_lookup data "body" = Some (PStr b) → body m = b)
  ∧ (dict_lookup data "body" = None → body m = "").
Proof.
  unfold normalize, ingress, message_text. intros Hn Hptt.
  rewrite Hptt in Hn. destruct (matches_criteria data); [|done]. simpl in Hn.
  destruct (parse_message env data _) as [m'|] eqn:Hp; [|done].
  injection Hn as ->. apply parse_message_fields in Hp as (Hb & _).
  unfold dict_get_default in Hb.
  split.
  - intros b Hl. rewrite Hl in Hb. simpl in Hb.
    rewrite validate_str_PStr in Hb. by injection Hb.
  - intros Hl. rewrite Hl in Hb. simpl in Hb.
    rewrite validate_str_PStr in Hb. by injection Hb.
Qed.

(** X4. Every message that is buffered has the event ["onmessage"] and a
    type of the allow-list, and its sender id is the payload's
    [sender.id] when that is a string. *)
Theorem buffered_message_fields data io m :
  normalize env data io = Some m →
  event m = "onmessage"
  ∧ (type m = "chat" ∨ type m = "list_response" ∨ type m = "ptt")
  ∧ (∀ d i, dict_lookup data "sender" = Some (PDict d) →
            dict_lookup d "id" = Some (PStr i) → id (sender m) = i).
Proof.
  unfold normalize. intros Hn.
  destruct (matches_criteria data) eqn:Hc; [|done].
  unfold ingress, result_bind in Hn.
  destruct (message_text env data io) as [text|]; [|done].
  destruct (parse_message env data text) as [m'|] eqn:Hp; [|done].
  injection Hn as ->.
  apply parse_message_fields in Hp
    as (_ & (ve & Hle & Hve) & (vt & Hlt & Hvt) & (d & vi & Hls & Hli & Hvi)).
  unfold matches_criteria, in_allowed_types, dict_get in Hc.
  rewrite Hle, Hlt in Hc. simpl in Hc.
  apply andb_prop in Hc as [Hc Hty]. apply andb_prop in Hc as [Hev _].
  split.
  { destruct ve; try done. simpl in Hev. apply String.eqb_eq in Hev as ->.
    rewrite validate_str_PStr in Hve. by injection Hve. }
  split.
  { destruct vt; try done. simpl in Hty. rewrite validate_str_PStr in Hvt.
    injection Hvt as <-.
    apply orb_prop in Hty as [Hty|Hty]; [apply orb_prop in Hty as [Hty|Hty]|];
      apply String.eqb_eq in Hty; auto. }
  intros d' i Hls' Hli'. rewrite Hls in Hls'. injection Hls' as <-.
  rewrite Hli in Hli'. injection Hli' as ->.
  rewrite validate_str_PStr in Hvi. by injection Hvi.
Qed.

(** X5. A payload whose type is not ["ptt"] never reaches the
    transcription service and touches no file. *)
Theorem text_message_never_transcribes data io st :
  eq_str (dict_get data "type") "ptt" = false →
  effects (fst (webhook_handler env data io st)) = effects st
  ∧ files (fst (webhook_handler env data io st)) = files st.
Proof.
  intros Hptt.
  assert (after_audio env data io st = st) as Ha.
  { unfold after_audio. by rewrite Hptt, andb_false_r. }
  destruct (matches_criteria data) eqn:Hc.
  - destruct (ingress env data io) as [m|e] eqn:Hi.
    + assert (normalize env data io = Some m) as Hn
        by (unfold normalize; by rewrite Hc, Hi).
      rewrite (webhook_handler_accepted env data io st m Hn), Ha. simpl.
      unfold enqueue. by destruct (processing_tasks _ !! _).
    + by rewrite (webhook_handler_rejected env data io st e Hc Hi), Ha.
  - by rewrite webhook_handler_skipped.
Qed.

Lemma append_assoc (s1 s2 s3 : string) : (s1 +:+ s2) +:+ s3 = s1 +:+ s2 +:+ s3.
Proof.
  induction s1 as [|a s1 IH]; [done|].
  change (String a ((s1 +:+ s2) +:+ s3) = String a (s1 +:+ s2 +:+ s3)). by rewrite IH.
Qed.

(** [" ".join] of a list with one more element at its end *)
Lemma join_snoc sep l x :
  l ≠ [] → join sep (l ++ [x])%list = join sep l +:+ sep +:+ x.
Proof.
  induction l as [|y l IH]; [done|]. intros _.
  destruct l as [|z l].
  - done.
  - change (join sep ((y :: z :: l) ++ [x])%list)
      with (y +:+ sep +:+ join sep ((z :: l) ++ [x])%list).
    rewrite IH by done.
    change (join sep (y :: z :: l)) with (y +:+ sep +:+ join sep (z :: l)).
    by rewrite !append_assoc.
Qed.

(** X6. When a message joins a buffer that is not empty, the text the
    window will hand to the agent grows by one space and the message. *)
Theorem combined_text_grows data io st m :
  normalize env data io = Some m →
  buffer st (id (sender m)) ≠ [] →
  join " " (buffer (fst (webhook_handler env data io st)) (id (sender m)))
  = join " " (buffer st (id (sender m))) +:+ " " +:+ body m.
Proof.
  intros Hn Hne.
  rewrite (webhook_handler_accepted env data io st m Hn). simpl.
  rewrite enqueue_buffer, decide_True by done. rewrite after_audio_buffer.
  by apply join_snoc.
Qed.

End Answers.

(** ** Transcription, step by step *)

Section Transcription.
Context (env : Env).

(** X7. When the body is not valid base64, [transcribe_base64_audio]
    changes nothing (no file is created and the transcription service is
    not called), and the exception that leaves it is the
    [UnboundLocalError] of the [finally] block, not the decoding error. *)
Theorem decode_failure_is_masked io base64_audio st e :
  b64decode env base64_audio = Raise e →
  transcribe_base64_audio env io base64_audio st
  = (st, Raise (UnboundLocalError "tmp_file_path")).
Proof.
  intros Hd. unfold transcribe_base64_audio, transcribe_try. by rewrite Hd.
Qed.

(** X8. When the body decodes and the temporary file is written and
    closed, under a name that was free, a call leaves the files as they
    were.  With a client bound to [GROQ_CLIENT] it makes one call of the
    transcription service, on that file with the configured language, and
    its result is what the service gave.  With [GROQ_CLIENT] unbound, as in
    [main.py] as it stands, it makes no call and changes nothing, and
    [NameError] leaves it. *)
Theorem transcription_leaves_one_call io base64_audio st audio_data :
  b64decode env base64_audio = Ok audio_data →
  write_ok io = true →
  close_ok io = true →
  tmp_name io ∉ files st →
  transcribe_base64_audio env io base64_audio st
  = if GROQ_CLIENT_bound env
    then (add_effect (Transcribe (tmp_name io) (LANG env)) st, whisper io)
    else (st, Raise (NameError "GROQ_CLIENT")).
Proof.
  intros Hd Hw Hc Hfresh. unfold transcribe_base64_audio, transcribe_try.
  rewrite Hd, Hw, Hc.
  destruct (GROQ_CLIENT_bound env); simpl; rewrite decide_True by set_solver;
    f_equal; destruct st as [mb pt ts fs ef ck]; unfold set_files, add_effect; simpl in *;
    f_equal; set_solver.
Qed.

End Transcription.

(** ** The phone number of a sender *)

(** X9. The phone number handed to the agent has no ["@"] and is the part
    of the sender id before its first ["@"]: an id of the form [p@rest],
    with no ["@"] in [p], gives [p], and an id without ["@"] is handed over
    whole. *)
Theorem before_at_spec s :
  mentions "@" (before_at s) = false
  ∧ (mentions "@" s = false → before_at s = s)
  ∧ (∀ p rest, mentions "@" p = false → s = p +:+ String "@" rest → before_at s = p).
Proof.
  split; [|split].
  - induction s as [|c s IH]; [done|]. simpl.
    destruct (Ascii.eqb c "@") eqn:E; [done|]. simpl. by rewrite E.
  - induction s as [|c s IH]; [done|]. simpl.
    destruct (Ascii.eqb c "@"); [done|]. simpl. intros H. by rewrite IH.
  - intros p rest Hp ->. induction p as [|c p IH]; [done|].
    simpl in Hp. apply orb_false_elim in Hp as [Hc Hp].
    change (before_at (String c (p +:+ String "@" rest)) = String c p).
    simpl. rewrite Hc. by rewrite IH.
Qed.

(** ** Senders do not interfere *)

Section Isolation.
Context (env : Env).

Lemma dispatches_snoc_other s e l :
  (∀ p text, e ≠ CallAgent s p text) →
  dispatches s (l ++ [e])%list = dispatches s l.
Proof.
  intros He. rewrite dispatches_app. destruct e as [|s' p text]; simpl.
  - by rewrite app_nil_r.
  - destruct (String.eqb_spec s' s) as [->|]; [by destruct (He p text)|by rewrite app_nil_r].
Qed.

Lemma on_exception_dispatches tid s' e st s :
  dispatches s (effects (on_exception tid s' e st)) = dispatches s (effects st).
Proof. done. Qed.

Lemma step_leaves_other_senders now ev st st' r s :
  step env now ev st = Some (st', r) →
  concerns env st ev ≠ Some s →
  buffer st' s = buffer st s
  ∧ processing_tasks st' !! s = processing_tasks st !! s
  ∧ dispatches s (effects st') = dispatches s (effects st).
Proof.
  intros Hs Hc. destruct ev as [data io|tid|tid|tid res]; simpl in Hc.
  - apply step_Webhook in Hs as (_ & -> & _).
    destruct (normalize env data io) as [m|] eqn:Hn.
    + assert (s ≠ id (sender m)) as Hne by congruence.
      rewrite (webhook_handler_accepted env data io _ m Hn). simpl.
      destruct (after_audio_frame env data io (set_clock now st)) as (_ & Hp & _).
      rewrite enqueue_buffer, enqueue_handle, !decide_False by done.
      rewrite after_audio_buffer, Hp. split; [done|]. split; [done|].
      transitivity (dispatches s (effects (after_audio env data io (set_clock now st))));
        [|exact (after_audio_dispatches env s data io (set_clock now st))].
      unfold enqueue. by destruct (processing_tasks _ !! _).
    + destruct (webhook_handler_not_buffered env data io (set_clock now st) Hn)
        as (Hb & Hp & _).
      unfold buffer. rewrite Hb, Hp. split; [done|]. split; [done|].
      destruct (matches_criteria data) eqn:Hm.
      * unfold normalize in Hn. rewrite Hm in Hn.
        destruct (ingress env data io) as [|e] eqn:Hi; [done|].
        rewrite (webhook_handler_rejected env data io _ e Hm Hi). simpl.
        exact (after_audio_dispatches env s data io (set_clock now st)).
      * by rewrite webhook_handler_skipped.
  - apply step_TaskStart in Hs as (t & Ht & _ & _ & -> & _).
    rewrite Ht in Hc. simpl in Hc. assert (s ≠ task_sender_id t) as Hne by congruence.
    unfold task_start. destruct (int_WAIT_TIME env); [done|].
    by rewrite on_exception_buffer, on_exception_handle, !decide_False.
  - apply step_TaskWake in Hs as (t & d & Ht & _ & _ & _ & -> & _).
    rewrite Ht in Hc. simpl in Hc. assert (s ≠ task_sender_id t) as Hne by congruence.
    rewrite task_wake_buffer, task_wake_handle, !decide_False by done.
    split; [done|]. split; [done|].
    unfold task_wake. destruct (buffer _ _); [done|]. simpl.
    apply dispatches_snoc_other. congruence.
  - apply step_AgentDone in Hs as (t & p & c & Ht & _ & _ & -> & _).
    rewrite Ht in Hc. simpl in Hc. assert (s ≠ task_sender_id t) as Hne by congruence.
    unfold task_agent_done. destruct res; [done|].
    by rewrite on_exception_buffer, on_exception_handle, !decide_False.
Qed.

(** X10. A step leaves alone every sender it does not concern: a webhook
    touches the buffer and the handle of the sender of its message only,
    and a segment of a task, also one that ends in an exception, those of
    the sender the task was created for only; no call of the agent is made
    for another sender. *)
Theorem step_isolation now ev st st' r s :
  step env now ev st = Some (st', r) →
  concerns env st ev ≠ Some s →
  buffer st' s = buffer st s
  ∧ processing_tasks st' !! s = processing_tasks st !! s
  ∧ dispatches s (effects st') = dispatches s (effects st).
Proof. apply step_leaves_other_senders. Qed.

End Isolation.

(** ** What every reachable state satisfies *)

Section Reachable.
Context (env : Env).

Lemma task_wake_tasks_ne tid0 t0 st tid :
  tid ≠ tid0 → tasks (task_wake tid0 t0 st) !! tid = tasks st !! tid.
Proof.
  intros Hne. unfold task_wake.
  destruct (buffer _ _); rewrite lookup_set_task_st, decide_False by done; done.
Qed.

Lemma on_exception_tasks_ne tid0 s e st tid :
  tid ≠ tid0 → tasks (on_exception tid0 s e st) !! tid = tasks st !! tid.
Proof.
  intros Hne. unfold on_exception. by rewrite lookup_set_task_st, decide_False.
Qed.

(** A handle of another sender is another task. *)
Lemma handle_of_other_sender st s tid tid0 t0 :
  window_invariant st →
  processing_tasks st !! s = Some tid →
  tasks st !! tid0 = Some t0 →
  task_sender_id t0 ≠ s ∨ pending (task_st t0) = false →
  tid ≠ tid0.
Proof.
  intros Hinv Hh Ht0 Hdiff ->.
  destruct (Hinv s) as [_ Htask]. destruct (Htask tid0 Hh) as (t & Ht & Hid & Hp).
  rewrite Ht0 in Ht. injection Ht as <-. destruct Hdiff; congruence.
Qed.

Lemma step_window_invariant now ev st st' r :
  window_invariant st →
  step env now ev st = Some (st', r) →
  window_invariant st'.
Proof.
  intros Hinv Hs s. destruct (Hinv s) as [Hiff Htask].
  destruct ev as [data io|tid0|tid0|tid0 res].
  - apply step_Webhook in Hs as (_ & -> & _).
    destruct (normalize env data io) as [m|] eqn:Hn.
    + rewrite (webhook_handler_accepted env data io _ m Hn). simpl.
      destruct (after_audio_frame env data io (set_clock now st)) as (_ & Hp & Ht & _).
      simpl in Hp, Ht.
      rewrite enqueue_buffer, enqueue_handle, enqueue_tasks, after_audio_buffer, Hp, Ht.
      destruct (decide (s = id (sender m))) as [->|Hne].
      * split.
        { split; [eauto|]. intros _. by destruct (buffer (set_clock now st) (id (sender m))). }
        intros tid [= <-].
        destruct (processing_tasks st !! id (sender m)) as [tid0|] eqn:Hh; simpl.
        -- by apply Htask.
        -- exists (new_task m). by rewrite lookup_app_r, Nat.sub_diag.
      * split; [done|]. intros tid Hh.
        destruct (Htask tid Hh) as (t & Hl & Hid & Hpend). exists t.
        split; [|done].
        destruct (processing_tasks st !! id (sender m)); [done|].
        by apply lookup_app_l_Some.
    + destruct (webhook_handler_not_buffered env data io (set_clock now st) Hn)
        as (Hb & Hp & Ht).
      unfold buffer. rewrite Hb, Hp, Ht. done.
  - apply step_TaskStart in Hs as (t0 & Ht0 & Hst0 & _ & -> & _).
    unfold task_start. destruct (int_WAIT_TIME env) as [w|e].
    + split; [done|]. intros tid Hh.
      destruct (Htask tid Hh) as (t & Hl & Hid & Hpend).
      rewrite lookup_set_task_st. case_decide as Hd.
      * subst. exists (with_st (Sleeping (now + 1000 * w)) t).
        split; [|done]. simpl. by rewrite Hl.
      * by exists t.
    + rewrite on_exception_buffer, on_exception_handle.
      case_decide as Hd.
      * split; [|done]. split; [done|]. by intros [? ?].
      * split; [done|]. intros tid Hh.
        destruct (Htask tid Hh) as (t & Hl & Hid & Hpend). exists t.
        split; [|done]. rewrite on_exception_tasks_ne; [done|].
        eapply handle_of_other_sender; [done..|]. left. congruence.
  - apply step_TaskWake in Hs as (t0 & d & Ht0 & Hst0 & _ & _ & -> & _).
    rewrite task_wake_buffer, task_wake_handle.
    case_decide as Hd.
    + subst s.
      assert (match buffer (set_clock now st) (task_sender_id t0) with
              | [] => processing_tasks (set_clock now st) !! task_sender_id t0
              | _ :: _ => None
              end = None) as ->.
      { replace (buffer (set_clock now st) (task_sender_id t0))
          with (buffer st (task_sender_id t0)) by done.
        destruct (buffer st (task_sender_id t0)) eqn:Hb; [|done]. simpl.
        destruct (processing_tasks st !! task_sender_id t0) eqn:Hh; [|done].
        exfalso. apply Hiff; [eauto|done]. }
      split; [|done]. split; [done|]. by intros [? ?].
    + split; [done|]. intros tid Hh.
      destruct (Htask tid Hh) as (t & Hl & Hid & Hpend). exists t.
      split; [|done]. rewrite task_wake_tasks_ne; [done|].
      eapply handle_of_other_sender; [done..|]. left. congruence.
  - apply step_AgentDone in Hs as (t0 & p & c & Ht0 & Hst0 & _ & -> & _).
    unfold task_agent_done. destruct res as [a|e].
    + split; [done|]. intros tid Hh.
      destruct (Htask tid Hh) as (t & Hl & Hid & Hpend). exists t.
      split; [|done]. rewrite lookup_set_task_st, decide_False; [done|].
      intros ->. eapply (handle_of_other_sender st s tid tid t0); try done.
      right. by rewrite Hst0.
    + rewrite on_exception_buffer, on_exception_handle.
      case_decide as Hd.
      * split; [|done]. split; [done|]. by intros [? ?].
      * split; [done|]. intros tid Hh.
        destruct (Htask tid Hh) as (t & Hl & Hid & Hpend). exists t.
        split; [|done]. rewrite on_exception_tasks_ne; [done|].
        eapply handle_of_other_sender; [done..|]. left. congruence.
Qed.

Lemma reachable_window_invariant st : reachable env st → window_invariant st.
Proof.
  intros [trace Hrun].
  assert (window_invariant init) as Hinit.
  { intros s. split; [|done]. split; [done|]. by intros [? ?]. }
  revert Hrun Hinit. generalize init.
  induction trace as [|[now ev] trace IH]; intros st0 Hrun Hinv; simpl in Hrun.
  - by injection Hrun as <-.
  - destruct (step env now ev st0) as [[st1 r]|] eqn:Hs; [|done].
    eapply IH; [done|]. by eapply step_window_invariant.
Qed.

(** X11. In every reachable state a sender has messages waiting in its
    buffer exactly when it has a handle: no message waits without a window,
    and no window is open on an empty buffer. *)
Theorem messages_wait_iff_window st s :
  reachable env st →
  buffer st s ≠ [] ↔ is_Some (processing_tasks st !! s).
Proof. intros Hr. by destruct (reachable_window_invariant st Hr s). Qed.

(** X12. In every reachable state the handle of a sender is a task that
    was created for that sender and has not reached the end of its sleep:
    the task that will close the window still has to run. *)
Theorem handle_is_pending_task st s tid :
  reachable env st →
  processing_tasks st !! s = Some tid →
  ∃ t, tasks st !! tid = Some t ∧ task_sender_id t = s ∧ pending (task_st t) = true.
Proof.
  intros Hr Hh. destruct (reachable_window_invariant st Hr s) as [_ H]. by apply H.
Qed.

End Reachable.

(** ** Nothing is lost while no dispatch fails *)

Section Conservation.
Context (env : Env).

(** The handler calls no agent. *)
Lemma webhook_handler_dispatches data io st s :
  dispatches s (effects (fst (webhook_handler env data io st))) = dispatches s (effects st).
Proof.
  destruct (matches_criteria data) eqn:Hc.
  - destruct (ingress env data io) as [m|e] eqn:Hi.
    + assert (normalize env data io = Some m) as Hn
        by (unfold normalize; by rewrite Hc, Hi).
      rewrite (webhook_handler_accepted env data io st m Hn). simpl.
      rewrite <- (after_audio_dispatches env s data io st).
      unfold enqueue. by destruct (processing_tasks _ !! _).
    + rewrite (webhook_handler_rejected env data io st e Hc Hi). simpl.
      apply after_audio_dispatches.
  - by rewrite webhook_handler_skipped.
Qed.

Context (W : Z) (HW : int_WAIT_TIME env = Ok W) (s : string).





End Conservation.


(** ** A misconfigured WAIT_TIME *)

Section BadWaitTime.
Context (env : Env) (e : exn) (HE : int_WAIT_TIME env = Raise e).

Lemma step_never_slept now ev st st' r :
  never_slept st ∧ (∀ s, dispatches s (effects st) = []) →
  step env now ev st = Some (st', r) →
  never_slept st' ∧ (∀ s, dispatches s (effects st') = []).
Proof.
  intros [Hns Hd] Hs. destruct ev as [data io|tid|tid|tid res].
  - apply step_Webhook in Hs as (_ & -> & _). split.
    + destruct (normalize env data io) as [m|] eqn:Hn.
      * rewrite (webhook_handler_accepted env data io _ m Hn). simpl.
        destruct (after_audio_frame env data io (set_clock now st)) as (_ & _ & Ht & _).
        simpl in Ht. intros tid t. rewrite enqueue_tasks, Ht.
        destruct (processing_tasks _ !! _); [apply Hns|].
        intros [Hl|[_ Hl]]%lookup_app_Some; [by eapply Hns|].
        destruct (tid - List.length (tasks st)) as [|n]; [|by destruct n].
        injection Hl as <-. by left.
      * destruct (webhook_handler_not_buffered env data io (set_clock now st) Hn)
          as (_ & _ & Ht).
        intros tid t. rewrite Ht. apply Hns.
    + intros s. rewrite webhook_handler_dispatches. apply Hd.
  - apply step_TaskStart in Hs as (t0 & Ht0 & _ & _ & -> & _).
    unfold task_start. rewrite HE. split; [|done].
    intros tid' t. unfold on_exception. rewrite lookup_set_task_st.
    case_decide as Hdec.
    + destruct (tasks _ !! _); [|done]. intros [= <-]. right. by eexists.
    + apply Hns.
  - apply step_TaskWake in Hs as (t0 & d & Ht0 & Hst0 & _).
    destruct (Hns tid t0 Ht0) as [?|[? ?]]; congruence.
  - apply step_AgentDone in Hs as (t0 & p & c & Ht0 & Hst0 & _).
    destruct (Hns tid t0 Ht0) as [?|[? ?]]; congruence.
Qed.

Lemma run_never_slept trace : ∀ st st',
  never_slept st ∧ (∀ s, dispatches s (effects st) = []) →
  run env trace st = Some st' →
  never_slept st' ∧ (∀ s, dispatches s (effects st') = []).
Proof.
  induction trace as [|[now ev] trace IH]; intros st st' Hinv Hrun; simpl in Hrun.
  - by injection Hrun as <-.
  - destruct (step env now ev st) as [[st1 r]|] eqn:Hs; [|done].
    eapply IH; [|done]. by eapply step_never_slept.
Qed.

End BadWaitTime.

(** X14. When [WAIT_TIME] is not an integer literal, every task fails at
    [int(WAIT_TIME)] before it sleeps: in no reachable state has the agent
    been called for any sender, and no task sleeps or waits for the agent,
    however many messages were acknowledged. *)
Theorem invalid_wait_time_never_dispatches env e st s :
  int_WAIT_TIME env = Raise e →
  reachable env st →
  dispatches s (effects st) = []
  ∧ ∀ tid t, tasks st !! tid = Some t → live (task_st t) = true → task_st t = Created.
Proof.
  intros HE [trace Hrun].
  destruct (run_never_slept env e HE trace init st) as [Hns Hd]; [|done|].
  { split; [|done]. intros tid t Hl. done. }
  split; [done|]. intros tid t Hl Hlive.
  destruct (Hns tid t Hl) as [?|[e' He']]; [done|]. by rewrite He' in Hlive.
Qed.

(** ** process_chunks: when a voice message goes out *)

(** Printing sends nothing. *)
Lemma print_sends_no_voice io text style path ph :
  SendVoice path ph ∉ fst (print io text style).
Proof. unfold print. destruct (rich_print io text style); simpl; set_solver. Qed.

Lemma print_answers_send_no_voice env io l path ph :
  SendVoice path ph ∉ fst (print_answers env io l).
Proof.
  induction l as [|answer l IH]; simpl; [set_solver|].
  pose proof (print_sends_no_voice io
                (nl +:+ "Agent:" +:+ nl +:+ str_val env answer) "black on white" path ph)
    as Hp.
  destruct (print io _ _) as [out [[]|]]; [|done].
  destruct (print_answers env io l) as [out' r]. simpl in *. set_solver.
Qed.

(** X15. Whatever the chunk, [process_chunks] sends a voice message only
    for a direct answer: then the first node of the chunk is a dict whose
    ["messages"] is an [AIMessage] with a string content and no tool call,
    synthesis and saving succeeded, the text that was synthesised is that
    content, and the file goes to the [phone_number] of the call and to no
    one else. *)
Theorem voice_only_for_direct_answer env io chunk phone_number path ph :
  SendVoice path ph ∈ fst (process_chunks env io chunk phone_number) →
  ph = phone_number ∧ path = audio_tmp_name io
  ∧ gTTS_new io = Ok tt ∧ gTTS_save io = Ok tt
  ∧ ∃ node d rest answer tool_calls,
      chunk = PDict ((node, PDict d) :: rest)
      ∧ dict_lookup d "messages" = Some (PAIMessage (PStr answer) tool_calls)
      ∧ no_tool_call tool_calls = true
      ∧ GTTS answer "pt-br" ∈ fst (process_chunks env io chunk phone_number).
Proof.
  unfold process_chunks.
  destruct chunk as [| | | | | |d|]; try (simpl; by intros ?%elem_of_nil).
  destruct d as [|[node v] rest]; [simpl; by intros ?%elem_of_nil|]. simpl.
  destruct (contains_messages v) as [[|]|] eqn:Hc; try (simpl; by intros ?%elem_of_nil).
  destruct v as [| | | | | |d|]; simpl in *; try (by intros ?%elem_of_nil).
  unfold dict_getitem.
  destruct (dict_lookup d "messages") as [msg|] eqn:Hl; [|simpl; by intros ?%elem_of_nil].
  destruct msg as [| | | | | | |content tool_calls]; try (simpl; by intros ?%elem_of_nil).
  destruct content as [| | | |answer|l| |]; try (simpl; by intros ?%elem_of_nil).
  - unfold answer_str.
    destruct tool_calls as [[|tc tcs]|].
    + pose proof (print_sends_no_voice io (nl +:+ "Agent:" +:+ nl +:+ answer)
                    "black on white" path ph) as Hout.
      destruct (print io _ _) as [out [[]|]]; simpl in Hout; [|by intros ?].
      destruct (gTTS_new io) as [[]|] eqn:Hnew; [|simpl; set_solver].
      destruct (gTTS_save io) as [[]|] eqn:Hsave; [|simpl; set_solver].
      simpl in *. intros Hin.
      assert (ph = phone_number ∧ path = audio_tmp_name io) as [-> ->] by set_solver.
      repeat split; try done.
      exists node, d, rest, answer, (Some []). repeat split; try done. set_solver.
    + destruct (subscript tc "name"); [|simpl; by intros ?%elem_of_nil].
      destruct (subscript tc "args"); [|simpl; by intros ?%elem_of_nil].
      by intros ?%print_sends_no_voice.
    + pose proof (print_sends_no_voice io (nl +:+ "Agent:" +:+ nl +:+ answer)
                    "black on white" path ph) as Hout.
      destruct (print io _ _) as [out [[]|]]; simpl in Hout; [|by intros ?].
      destruct (gTTS_new io) as [[]|] eqn:Hnew; [|simpl; set_solver].
      destruct (gTTS_save io) as [[]|] eqn:Hsave; [|simpl; set_solver].
      simpl in *. intros Hin.
      assert (ph = phone_number ∧ path = audio_tmp_name io) as [-> ->] by set_solver.
      repeat split; try done.
      exists node, d, rest, answer, None. repeat split; try done. set_solver.
  - by intros ?%print_answers_send_no_voice.
Qed.

(** ** config.py *)

(** X16. [load_environment] returns exactly when [GOOGLE_API_KEY] is set
    to a string that is not empty, and then returns that value under that
    key; when the variable is unset or empty it raises [ValueError] with a
    message that names the variable. *)
Theorem load_environment_spec environ :
  match environ !! "GOOGLE_API_KEY" with
  | Some (String c v) =>
      Config.load_environment environ
      = Config.Return [("GOOGLE_API_KEY", Some (String c v))]
  | _ =>
      Config.load_environment environ
      = Config.RaiseValueError "Missing environment variables: GOOGLE_API_KEY"
  end.
Proof.
  unfold Config.load_environment.
  destruct (environ !! "GOOGLE_API_KEY") as [[|c v]|]; reflexivity.
Qed.

(** X17. [setup_model] checks the environment before it looks at its
    argument: without a usable [GOOGLE_API_KEY] it raises the [ValueError]
    of [load_environment], whatever [llm_config] is. *)
Theorem setup_model_checks_environment_first environ llm_config :
  Config.falsy (environ !! "GOOGLE_API_KEY") = true →
  Config.setup_model environ llm_config
  = Config.RaiseValueError "Missing environment variables: GOOGLE_API_KEY".
Proof.
  intros Hf. unfold Config.setup_model, Config.load_environment.
  by destruct (environ !! "GOOGLE_API_KEY") as [[|c v]|].
Qed.

(** X18. With [GOOGLE_API_KEY] set, [setup_model] on a dict returns
    [None] for every provider other than ["google"], without looking at
    the model or the temperature; for ["google"] it builds the model from
    [llm_config["model"]], [llm_config["temperature"]] and the key of the
    environment; and it raises [KeyError] when the provider is missing. *)
Theorem setup_model_by_provider environ c v config :
  environ !! "GOOGLE_API_KEY" = Some (String c v) →
  match dict_lookup config "provider" with
  | None => Config.setup_model environ (PDict config) = Config.RaiseKeyError "provider"
  | Some provider =>
      if eq_str provider "google" then
        match dict_lookup config "model", dict_lookup config "temperature" with
        | Some m, Some t =>
            Config.setup_model environ (PDict config)
            = Config.Return (Some {| Config.model := m; Config.temperature := t;
                                     Config.google_api_key := Some (String c v) |})
        | None, _ => Config.setup_model environ (PDict config) = Config.RaiseKeyError "model"
        | Some _, None =>
            Config.setup_model environ (PDict config) = Config.RaiseKeyError "temperature"
        end
      else Config.setup_model environ (PDict config) = Config.Return None
  end.
Proof.
  intros He. unfold Config.setup_model, Config.load_environment. rewrite He. simpl.
  unfold Config.config_item, subscript, dict_getitem.
  destruct (dict_lookup config "provider") as [provider|]; [|done].
  destruct (eq_str provider "google"); [|done].
  destruct (dict_lookup config "model"); [|done].
  by destruct (dict_lookup config "temperature").
Qed.

(** ** The further properties at concrete inputs *)

(** The voice note of scenario B *)
Lemma voice_note_buffered_as_transcription_witness :
  whisper (Sample.audio "ola") = Ok "ola".
Proof.
  apply (voice_note_buffered_as_transcription Sample.env
           (Sample.ptt Sample.alice "b2xh") (Sample.audio "ola")
           {| event := "onmessage"; session := "s1"; body := "ola"; type := "ptt";
              isNewMsg := true; sender := {| id := Sample.alice; isUser := true |};
              isGroupMsg := false |}).
  - vm_compute. reflexivity.
  - reflexivity.
Defined.

(** A chat message is buffered as it is. *)
Lemma text_buffered_verbatim_witness :
  body {| event := "onmessage"; session := "s1"; body := "Oi"; type := "chat";
          isNewMsg := true; sender := {| id := Sample.alice; isUser := true |};
          isGroupMsg := false |} = "Oi".
Proof.
  apply (text_buffered_verbatim Sample.env (Sample.payload "chat" Sample.alice "Oi")
           (Sample.audio "")
           {| event := "onmessage"; session := "s1"; body := "Oi"; type := "chat";
              isNewMsg := true; sender := {| id := Sample.alice; isUser := true |};
              isGroupMsg := false |}).
  - vm_compute. reflexivity.
  - reflexivity.
  - reflexivity.
Defined.

Lemma buffered_message_fields_witness :
  event {| event := "onmessage"; session := "s1"; body := "Oi"; type := "chat";
           isNewMsg := true; sender := {| id := Sample.alice; isUser := true |};
           isGroupMsg := false |} = "onmessage".
Proof.
  apply (buffered_message_fields Sample.env (Sample.payload "chat" Sample.alice "Oi")
           (Sample.audio "")
           {| event := "onmessage"; session := "s1"; body := "Oi"; type := "chat";
              isNewMsg := true; sender := {| id := Sample.alice; isUser := true |};
              isGroupMsg := false |}).
  vm_compute. reflexivity.
Defined.

Lemma text_message_never_transcribes_witness :
  effects (fst (webhook_handler Sample.env (Sample.payload "chat" Sample.alice "Oi")
                  (Sample.audio "") init)) = effects init.
Proof.
  apply (text_message_never_transcribes Sample.env (Sample.payload "chat" Sample.alice "Oi")
           (Sample.audio "") init).
  reflexivity.
Defined.

(** The second message of scenario A *)
Lemma combined_text_grows_witness :
  join " " (buffer (fst (webhook_handler Sample.env
                           (Sample.payload "chat" Sample.alice "tudo bem?") (Sample.audio "")
                           (Sample.after [(0%Z, Sample.chat Sample.alice "Oi")])))
              Sample.alice)
  = join " " (buffer (Sample.after [(0%Z, Sample.chat Sample.alice "Oi")]) Sample.alice)
    +:+ " " +:+ "tudo bem?".
Proof.
  apply (combined_text_grows Sample.env
           (Sample.payload "chat" Sample.alice "tudo bem?") (Sample.audio "")
           (Sample.after [(0%Z, Sample.chat Sample.alice "Oi")])
           {| event := "onmessage"; session := "s1"; body := "tudo bem?"; type := "chat";
              isNewMsg := true; sender := {| id := Sample.alice; isUser := true |};
              isGroupMsg := false |}).
  - vm_compute. reflexivity.
  - vm_compute. discriminate.
Defined.

(** ["b"] is not base64: one data character is left over. *)
Lemma decode_failure_is_masked_witness :
  transcribe_base64_audio Sample.env (Sample.audio "ola") (PStr "b") init
  = (init, Raise (UnboundLocalError "tmp_file_path")).
Proof.
  apply (decode_failure_is_masked Sample.env (Sample.audio "ola") (PStr "b") init
           BinasciiError).
  reflexivity.
Defined.

Lemma transcription_leaves_one_call_witness :
  transcribe_base64_audio Sample.env (Sample.audio "ola") (PStr "b2xh") init
  = (add_effect (Transcribe "/tmp/a.ogg" (Some "pt")) init, Ok "ola").
Proof.
  apply (transcription_leaves_one_call Sample.env (Sample.audio "ola") (PStr "b2xh") init
           [Byte.x6f; Byte.x6c; Byte.x61]).
  - reflexivity.
  - reflexivity.
  - reflexivity.
  - apply not_elem_of_empty.
Defined.

(** A message of one sender leaves the window of another as it is. *)
Lemma step_isolation_witness :
  buffer (Sample.after [(0, Sample.chat Sample.alice "Oi");
                        (100, Sample.chat "5522888@c.us" "Bom dia")]%Z) Sample.alice
  = buffer (Sample.after [(0%Z, Sample.chat Sample.alice "Oi")]) Sample.alice.
Proof.
  apply (step_isolation Sample.env 100 (Sample.chat "5522888@c.us" "Bom dia")
           (Sample.after [(0%Z, Sample.chat Sample.alice "Oi")])
           (Sample.after [(0, Sample.chat Sample.alice "Oi");
                          (100, Sample.chat "5522888@c.us" "Bom dia")]%Z)
           (Some (Ok (aggregating false))) Sample.alice).
  - vm_compute. reflexivity.
  - vm_compute. discriminate.
Defined.

Lemma messages_wait_iff_window_witness :
  buffer (Sample.after Sample.burst) Sample.alice ≠ []
  ↔ is_Some (processing_tasks (Sample.after Sample.burst) !! Sample.alice).
Proof.
  apply (messages_wait_iff_window Sample.env (Sample.after Sample.burst) Sample.alice).
  exists Sample.burst. vm_compute. reflexivity.
Defined.

Lemma handle_is_pending_task_witness :
  ∃ t, tasks (Sample.after Sample.burst) !! 0 = Some t
       ∧ task_sender_id t = Sample.alice ∧ pending (task_st t) = true.
Proof.
  apply (handle_is_pending_task Sample.env (Sample.after Sample.burst) Sample.alice 0).
  - exists Sample.burst. vm_compute. reflexivity.
  - vm_compute. reflexivity.
Defined.


(** [WAIT_TIME=0.5]: the message is acknowledged and its task fails. *)
Lemma invalid_wait_time_never_dispatches_witness :
  dispatches Sample.alice
    (effects (default init
                (run Sample.env_bad_wait
                   [(0, Sample.chat Sample.alice "Oi"); (0, TaskStart 0)]%Z init)))
  = [].
Proof.
  apply (invalid_wait_time_never_dispatches Sample.env_bad_wait ValueError
           (default init
              (run Sample.env_bad_wait
                 [(0, Sample.chat Sample.alice "Oi"); (0, TaskStart 0)]%Z init))
           Sample.alice).
  - reflexivity.
  - exists [(0, Sample.chat Sample.alice "Oi"); (0, TaskStart 0)]%Z. vm_compute. reflexivity.
Defined.

Lemma voice_only_for_direct_answer_witness :
  "5511999" = "5511999" ∧ "/tmp/b.mp3" = audio_tmp_name Sample.voice
  ∧ gTTS_new Sample.voice = Ok tt ∧ gTTS_save Sample.voice = Ok tt.
Proof.
  destruct (voice_only_for_direct_answer Sample.env Sample.voice
              (direct_answer_chunk "agent" "Ola! Como posso ajudar?") "5511999"
              "/tmp/b.mp3" "5511999") as (H1 & H2 & H3 & H4 & _).
  - vm_compute. set_solver.
  - done.
Defined.

Lemma setup_model_checks_environment_first_witness :
  Config.setup_model {[ "GOOGLE_API_KEY" := "" ]} (PDict [("provider", PStr "google")])
  = Config.RaiseValueError "Missing environment variables: GOOGLE_API_KEY".
Proof.
  apply (setup_model_checks_environment_first {[ "GOOGLE_API_KEY" := "" ]}
           (PDict [("provider", PStr "google")])).
  vm_compute. reflexivity.
Defined.

Lemma setup_model_by_provider_witness :
  Config.setup_model {[ "GOOGLE_API_KEY" := "k" ]}
    (PDict [("provider", PStr "openai"); ("model", PStr "gpt-4o")])
  = Config.Return None.
Proof.
  apply (setup_model_by_provider {[ "GOOGLE_API_KEY" := "k" ]} "k"%char ""
           [("provider", PStr "openai"); ("model", PStr "gpt-4o")]).
  vm_compute. reflexivity.
Defined.

(** ** What stays behind *)

Section Residue.
Context (env : Env).

Lemma step_keeps_entries now ev st st' r :
  step env now ev st = Some (st', r) →
  dom (message_buffers st) ⊆ dom (message_buffers st').
Proof.
  intros Hs. destruct ev as [data io|tid|tid|tid res].
  - apply step_Webhook in Hs as (_ & -> & _).
    destruct (normalize env data io) as [m|] eqn:Hn.
    + rewrite (webhook_handler_accepted env data io _ m Hn). simpl.
      destruct (after_audio_frame env data io (set_clock now st)) as (Hb & _).
      simpl in Hb.
      assert (message_buffers (enqueue m (after_audio env data io (set_clock now st)))
              = <[id (sender m) := (buffer st (id (sender m)) ++ [body m])%list]>
                  (message_buffers st)) as ->.
      { unfold enqueue. destruct (processing_tasks _ !! _); simpl; by rewrite Hb. }
      rewrite dom_insert_L. set_solver.
    + by destruct (webhook_handler_not_buffered env data io (set_clock now st) Hn) as (-> & _).
  - apply step_TaskStart in Hs as (t & _ & _ & _ & -> & _).
    unfold task_start. destruct (int_WAIT_TIME env); [done|].
    unfold on_exception. simpl. rewrite dom_insert_L. set_solver.
  - apply step_TaskWake in Hs as (t & d & _ & _ & _ & _ & -> & _).
    unfold task_wake. destruct (buffer _ _); simpl; rewrite !dom_insert_L; set_solver.
  - apply step_AgentDone in Hs as (t & p & c & _ & _ & _ & -> & _).
    unfold task_agent_done. destruct res; [done|].
    unfold on_exception. simpl. rewrite dom_insert_L. set_solver.
Qed.

(** X19. No entry of [message_buffers] is ever removed: a sender that has
    an entry keeps one, empty or not, through every run, so the map grows
    with the number of senders seen. *)
Theorem buffers_keep_their_entries trace st st' :
  run env trace st = Some st' →
  dom (message_buffers st) ⊆ dom (message_buffers st').
Proof.
  revert st. induction trace as [|[now ev] trace IH]; intros st Hrun; simpl in Hrun.
  - by injection Hrun as <-.
  - destruct (step env now ev st) as [[st1 r]|] eqn:Hs; [|done].
    etrans; [by eapply step_keeps_entries|by apply IH].
Qed.

Lemma transcribe_files io base64_audio st :
  write_ok io = true →
  tmp_name io ∉ files st →
  files (fst (transcribe_base64_audio env io base64_audio st)) = files st.
Proof.
  intros Hw Hfresh. unfold transcribe_base64_audio, transcribe_try.
  destruct (b64decode env base64_audio); [|done].
  rewrite Hw.
  destruct (close_ok io), (GROQ_CLIENT_bound env); simpl;
    rewrite decide_True by set_solver; simpl; set_solver.
Qed.

(** X20. A call of the handler leaves no temporary file: when the audio
    is written, under a name that was free, the files after the call are
    the files before it, whether the payload was buffered, skipped or
    rejected, and whether transcription succeeded or not. *)
Theorem handler_leaves_no_file data io st :
  write_ok io = true →
  tmp_name io ∉ files st →
  files (fst (webhook_handler env data io st)) = files st.
Proof.
  intros Hw Hfresh.
  assert (files (after_audio env data io st) = files st) as Ha.
  { unfold after_audio. destruct (_ && _); [by apply transcribe_files|done]. }
  destruct (matches_criteria data) eqn:Hc.
  - destruct (ingress env data io) as [m|e] eqn:Hi.
    + assert (normalize env data io = Some m) as Hn
        by (unfold normalize; by rewrite Hc, Hi).
      rewrite (webhook_handler_accepted env data io st m Hn). simpl.
      rewrite <- Ha. unfold enqueue. by destruct (processing_tasks _ !! _).
    + by rewrite (webhook_handler_rejected env data io st e Hc Hi).
  - by rewrite webhook_handler_skipped.
Qed.

End Residue.

(** After scenario A both senders still have their entry. *)
Lemma buffers_keep_their_entries_witness :
  dom (message_buffers (Sample.after Sample.burst))
  ⊆ dom (message_buffers (Sample.after (Sample.burst ++ [(1000, TaskWake 0)]%Z))).
Proof.
  apply (buffers_keep_their_entries Sample.env [(1000, TaskWake 0)]%Z).
  vm_compute. reflexivity.
Defined.

(** A voice note whose transcription fails *)
Lemma handler_leaves_no_file_witness :
  files (fst (webhook_handler Sample.env (Sample.ptt Sample.alice "b2xh")
                {| tmp_name := "/tmp/a.ogg"; write_ok := true; close_ok := true;
                   whisper := Raise (CollaboratorError "503") |} init))
  = files init.
Proof.
  apply (handler_leaves_no_file Sample.env (Sample.ptt Sample.alice "b2xh")
           {| tmp_name := "/tmp/a.ogg"; write_ok := true; close_ok := true;
              whisper := Raise (CollaboratorError "503") |} init).
  - reflexivity.
  - apply not_elem_of_empty.
Defined.
